(** * dvdrip.py: title selection, stream metadata and the remux retry loop

  A shallow embedding of [tools/dvdrip.py] (Python 2).  Byte strings are
  Rocq [string]s (lists of 8-bit characters), Python integers are [Z],
  dictionaries are [gmap]s or association lists in iteration order, and
  the effects of the script (console output, files written and removed,
  child processes spawned, exceptions and [sys.exit]) are threaded through
  a small state-and-exception monad [py]. *)

From Stdlib Require Import ZArith Ascii String List Sorted Permutation Lia Bool.
From Stdlib Require Import DecimalString OrdersEx.
From stdpp Require Import gmap strings list fin_maps sorting.

Local Open Scope Z_scope.

(** ** Python 2 byte-string primitives *)

Module Py.

(** [\d] on a byte string: the ten ASCII digits. *)
Definition is_digit (c : ascii) : bool :=
  (Ascii.leb "0" c && Ascii.leb c "9")%char.

(** [\w] on a byte string without the LOCALE/UNICODE flags. *)
Definition is_word (c : ascii) : bool :=
  (is_digit c
   || (Ascii.leb "a" c && Ascii.leb c "z")
   || (Ascii.leb "A" c && Ascii.leb c "Z")
   || Ascii.eqb c "_")%char.

Definition is_ascii (c : ascii) : bool := (nat_of_ascii c <? 128)%nat.

(** [s.lstrip()], [s.rstrip()], [s.strip()]: whitespace is tab, newline,
    vertical tab, form feed, carriage return and space. *)
Fixpoint lstrip (s : string) : string :=
  match s with
  | EmptyString => EmptyString
  | String c s' => if Ascii.is_space c then lstrip s' else s
  end.

Fixpoint rstrip (s : string) : string :=
  match s with
  | EmptyString => EmptyString
  | String c s' =>
      match rstrip s' with
      | EmptyString => if Ascii.is_space c then EmptyString else String c EmptyString
      | r => String c r
      end
  end.

Definition strip (s : string) : string := rstrip (lstrip s).

(** [s.startswith(p)], and the remainder of [s] after [p]. *)
Fixpoint strip_prefix (p s : string) : option string :=
  match p, s with
  | EmptyString, _ => Some s
  | String a p', String b s' => if Ascii.eqb a b then strip_prefix p' s' else None
  | String _ _, EmptyString => None
  end.

Definition startswith (s p : string) : bool :=
  match strip_prefix p s with Some _ => true | None => false end.

(** [s.split('\n')]. *)
Fixpoint split_nl (s : string) : list string :=
  match s with
  | EmptyString => [EmptyString]
  | String c s' =>
      if Ascii.eqb c "010"%char then EmptyString :: split_nl s'
      else match split_nl s' with
           | l :: ls => String c l :: ls
           | [] => [String c EmptyString]
           end
  end.

(** [sep.join(l)]. *)
Definition join (sep : string) (l : list string) : string := String.concat sep l.

(** [s.replace(c, '')] and [s.replace(c, d)] for one-character [c], [d]. *)
Fixpoint delete_char (c : ascii) (s : string) : string :=
  match s with
  | EmptyString => EmptyString
  | String a s' => if Ascii.eqb a c then delete_char c s' else String a (delete_char c s')
  end.

Fixpoint replace_char (c d : ascii) (s : string) : string :=
  match s with
  | EmptyString => EmptyString
  | String a s' => String (if Ascii.eqb a c then d else a) (replace_char c d s')
  end.

(** ['%d' % n]. *)
Definition str_of_int (n : Z) : string := NilZero.string_of_int (Z.to_int n).

(** [int(s)] for a run of ASCII digits. *)
Definition digit_value (c : ascii) : Z := Z.of_nat (nat_of_ascii c) - 48.

Fixpoint int_of_digits_from (acc : Z) (s : string) : Z :=
  match s with
  | EmptyString => acc
  | String c s' => int_of_digits_from (10 * acc + digit_value c) s'
  end.

Definition int_of_digits (s : string) : Z := int_of_digits_from 0 s.

Fixpoint all_chars (P : ascii → bool) (s : string) : bool :=
  match s with
  | EmptyString => true
  | String c s' => P c && all_chars P s'
  end.

(** The longest prefix of [s] whose characters satisfy [cls]. *)
Fixpoint run_length (cls : ascii → bool) (s : string) : nat :=
  match s with
  | EmptyString => O
  | String c s' => if cls c then S (run_length cls s') else O
  end.

Fixpoint take (n : nat) (s : string) : string :=
  match n, s with
  | S n', String c s' => String c (take n' s')
  | _, _ => EmptyString
  end.

Fixpoint drop (n : nat) (s : string) : string :=
  match n, s with
  | S n', String _ s' => drop n' s'
  | _, _ => s
  end.

End Py.

(** ** The fragment of [re] the script uses

  Every pattern in the script is a sequence of literal texts and greedy
  one-or-more character-class runs, some of them capturing.  A run tries
  its longest extent first and backs off one character at a time, which
  is the order in which the backtracking matcher explores it. *)

Module Re.

Inductive atom :=
| Lit (s : string)
| Run (capture : bool) (cls : ascii → bool).

Definition pattern := list atom.

(** Try run lengths [n], [n-1], ..., 1 in that order. *)
Fixpoint backoff (k : string → option (list string)) (capture : bool)
    (s : string) (n : nat) : option (list string) :=
  match n with
  | O => None
  | S m =>
      match k (Py.drop n s) with
      | Some groups => Some (if capture then Py.take n s :: groups else groups)
      | None => backoff k capture s m
      end
  end.

(** Match [p] at the start of [s]; the result lists the captured groups. *)
Fixpoint match_at (p : pattern) (s : string) : option (list string) :=
  match p with
  | [] => Some []
  | Lit l :: p' =>
      match Py.strip_prefix l s with
      | Some s' => match_at p' s'
      | None => None
      end
  | Run capture cls :: p' =>
      backoff (match_at p') capture s (Py.run_length cls s)
  end.

(** [re.match(p, s)]. *)
Definition rmatch (p : pattern) (s : string) : option (list string) := match_at p s.

(** [re.search(p, s)]: the leftmost position at which [p] matches. *)
Fixpoint search (p : pattern) (s : string) : option (list string) :=
  match match_at p s with
  | Some groups => Some groups
  | None =>
      match s with
      | EmptyString => None
      | String _ s' => search p s'
      end
  end.

(** [m.group(i)], 1-based. *)
Definition group (groups : list string) (i : nat) : string :=
  nth (i - 1) groups EmptyString.

End Re.

(** ** Effects: the world the script acts on, and its exceptions *)

Inductive exn :=
| KeyError (key : string)
| ValueError (literal : string)
| UnicodeDecodeError
| OSError (path : string)
| SystemExit (code : Z).

Inductive result (A : Type) :=
| Ok (a : A)
| Raise (e : exn).
Arguments Ok {A} a.
Arguments Raise {A} e.

(** [fs] maps the paths of the working directory to file contents;
    [sys_stdout] and [sys_stderr] list the texts written, oldest first;
    [spawned] lists the argument vectors handed to [subprocess.Popen]. *)
Record world := World {
  fs : gmap string string;
  sys_stdout : list string;
  sys_stderr : list string;
  spawned : list (list string)
}.

Definition py (A : Type) : Type := world → result A * world.

#[global] Instance py_ret : MRet py := λ A a w, (Ok a, w).
#[global] Instance py_bind : MBind py := λ A B f m w,
  match m w with
  | (Ok a, w') => f a w'
  | (Raise e, w') => (Raise e, w')
  end.

Definition raise {A} (e : exn) : py A := λ w, (Raise e, w).

Definition lift {A} (r : result A) : py A := λ w, (r, w).

Inductive console := Stdout | Stderr.

Definition write (stream : console) (text : string) : py unit := λ w,
  (Ok (),
   match stream with
   | Stdout => World (fs w) (sys_stdout w ++ [text]) (sys_stderr w) (spawned w)
   | Stderr => World (fs w) (sys_stdout w) (sys_stderr w ++ [text]) (spawned w)
   end).

Definition esc : string := String (ascii_of_nat 27) EmptyString.
Definition nl : string := String (ascii_of_nat 10) EmptyString.

(** [msg(s, stream)]: one write of [s] wrapped in the ANSI colour codes. *)
Definition msg_to (stream : console) (s : string) : py unit :=
  write stream (Py.join EmptyString [esc +:+ "[92m"; s; esc +:+ "[0m"; nl]).

Definition msg (s : string) : py unit := msg_to Stdout s.

(** [die(err)]. *)
Definition die {A} (err : string) : py A :=
  msg_to Stderr err;; raise (SystemExit 1).

(** The [print] statement. *)
Definition print (s : string) : py unit := write Stdout (s +:+ nl).

(** [open(path, 'w').write(text)] and [os.unlink(path)]. *)
Definition write_file (path text : string) : py unit := λ w,
  (Ok (), World (<[path := text]> (fs w)) (sys_stdout w) (sys_stderr w) (spawned w)).

Definition unlink (path : string) : py unit := λ w,
  match fs w !! path with
  | Some _ => (Ok (), World (delete path (fs w)) (sys_stdout w) (sys_stderr w) (spawned w))
  | None => (Raise (OSError path), w)
  end.

(** ** [lang_iso_code] *)

Definition lang_iso_code : gmap string string :=
  list_to_map
    [("ar", "ara"); ("cy", "cym"); ("de", "ger"); ("en", "eng");
     ("es", "spa"); ("fa", "fas"); ("fr", "fra"); ("ga", "gle");
     ("he", "heb"); ("ja", "jpn"); ("ko", "kor"); ("pt", "por");
     ("ru", "rus"); ("zh", "chi"); ("unknown", "eng")].

(** [d[key]] on a dictionary of strings. *)
Definition getitem (d : gmap string string) (key : string) : result string :=
  match d !! key with
  | Some v => Ok v
  | None => Raise (KeyError key)
  end.

(** ** [class Stream] *)

Inductive stream_type := audio | subtitle.

#[global] Instance stream_type_eq_dec : EqDecision stream_type.
Proof. solve_decision. Defined.

Record Stream := mkStream {
  type : stream_type;
  format : option string;
  language : string
}.

Definition str_of_type (t : stream_type) : string :=
  match t with audio => "audio" | subtitle => "subtitle" end.

(** [Stream.__str__]; [self.format or ''] is empty for [None]. *)
Definition Stream_str (s : Stream) : string :=
  Py.join " " [str_of_type (type s); default EmptyString (format s); language s].

(** ** [parse_metadata] *)

Definition word_or_dot (c : ascii) : bool := Py.is_word c || Ascii.eqb c ".".

Definition audio_re : Re.pattern :=
  [Re.Lit "audio stream: "; Re.Run false Py.is_digit; Re.Lit " format: ";
   Re.Run true word_or_dot; Re.Lit " ("; Re.Run true word_or_dot;
   Re.Lit ") language: "; Re.Run true Py.is_word].

Definition subtitle_re : Re.pattern :=
  [Re.Lit "subtitle ( sid ): "; Re.Run false Py.is_digit; Re.Lit " language: ";
   Re.Run true Py.is_word].

(** The body of the [for line in log] loop. *)
Definition parse_metadata_line (line : string) (streams : list Stream)
    : py (list Stream) :=
  let line := Py.strip line in
  streams ←
    match Re.rmatch audio_re line with
    | Some m =>
        lang ← lift (getitem lang_iso_code (Re.group m 3));
        let stream := mkStream audio (Some (Re.group m 1 +:+ ":" +:+ Re.group m 2)) lang in
        msg ("Spotted stream: " +:+ Stream_str stream);;
        mret (streams ++ [stream])
    | None => mret streams
    end;
  match Re.rmatch subtitle_re line with
  | Some m =>
      lang ← lift (getitem lang_iso_code (Re.group m 1));
      let stream := mkStream subtitle None lang in
      msg ("Spotted stream: " +:+ Stream_str stream);;
      mret (streams ++ [stream])
  | None => mret streams
  end.

Fixpoint parse_metadata_from (log : list string) (streams : list Stream)
    : py (list Stream) :=
  match log with
  | [] => mret streams
  | line :: log' =>
      streams' ← parse_metadata_line line streams;
      parse_metadata_from log' streams'
  end.

Definition parse_metadata (log : list string) : py (list Stream) :=
  parse_metadata_from log [].

(** ** [list.sort]

    [list.sort] is stable, also under [reverse=True]: entries with equal
    keys keep the order they had.  There is only one stable sorted
    arrangement of a list, so insertion from the right, each entry going
    in front of the first entry it does not exceed, computes it. *)

Fixpoint insert_sorted {A} (le : A → A → bool) (x : A) (l : list A) : list A :=
  match l with
  | [] => [x]
  | y :: l' => if le x y then x :: l else y :: insert_sorted le x l'
  end.

Definition stable_sort {A} (le : A → A → bool) (l : list A) : list A :=
  foldr (insert_sorted le) [] l.

(** ** [read_toc] *)

Definition spawn (cmd : list string) : py unit := λ w,
  (Ok (), World (fs w) (sys_stdout w) (sys_stderr w) (spawned w ++ [cmd])).

Definition length_char (c : ascii) : bool :=
  Py.is_digit c || Ascii.eqb c ":" || Ascii.eqb c ".".

Definition toc_re : Re.pattern :=
  [Re.Lit "Title: "; Re.Run true Py.is_digit; Re.Lit ", Length: ";
   Re.Run true length_char].

(** One entry of [title_len]: the Length text and the title number. *)
Definition toc_entry : Type := string * Z.

Definition toc_line_entry (line : string) : option toc_entry :=
  match Re.rmatch toc_re line with
  | Some m => Some (Re.group m 2, Py.int_of_digits (Re.group m 1))
  | None => None
  end.

Fixpoint read_toc_scan (lines : list string) (title_len : list toc_entry)
    : py (list toc_entry) :=
  match lines with
  | [] => mret title_len
  | line :: lines' =>
      let line := Py.strip line in
      print line;;
      read_toc_scan lines'
        (match toc_line_entry line with
         | Some e => title_len ++ [e]
         | None => title_len
         end)
  end.

(** [key=lambda x: x[0], reverse=True]: byte-wise comparison of the Length
    texts, greatest first. *)
Definition by_length_desc (a b : toc_entry) : bool := String.leb (fst b) (fst a).

(** [key=lambda x: x[1]]. *)
Definition by_title (a b : toc_entry) : bool := Z.leb (snd a) (snd b).

(** [read_toc(n)]; [toc] is what [lsdvd] prints, line by line. *)
Definition read_toc (toc : list string) (n : nat) : py (list Z) :=
  spawn ["lsdvd"];;
  title_len ← read_toc_scan toc [];
  let title_len := stable_sort by_length_desc title_len in
  let title_len := take n title_len in
  let title_len := stable_sort by_title title_len in
  mret (map snd title_len).

(** ** [stream_language_tags] *)

Fixpoint stream_language_tags_from (stream_defs : list Stream)
    (args : list string) (astream sstream : Z) : list string :=
  match stream_defs with
  | [] => args
  | s :: rest =>
      match type s with
      | audio =>
          stream_language_tags_from rest
            (args ++ ["-metadata:s:a:" +:+ Py.str_of_int astream;
                      "language=" +:+ language s])
            (astream + 1) sstream
      | subtitle =>
          stream_language_tags_from rest
            (args ++ ["-metadata:s:s:" +:+ Py.str_of_int sstream;
                      "language=" +:+ language s])
            astream (sstream + 1)
      end
  end.

Definition stream_language_tags (stream_defs : list Stream) : list string :=
  stream_language_tags_from stream_defs [] 0 0.

(** ** [filesafe] *)

#[global] Instance result_ret : MRet result := λ A a, Ok a.
#[global] Instance result_bind : MBind result := λ A B f r,
  match r with
  | Ok a => f a
  | Raise e => Raise e
  end.

(** The two kinds of Python 2 text: byte strings and code-point strings. *)
Inductive pystring :=
| Str (s : string)
| UStr (u : list N).

Definition question : ascii := ascii_of_nat 63.

(** [s.encode('ascii', 'replace')].  A byte string is first decoded with
    the strict ASCII codec, which raises on any byte above 127; a
    code-point string has each such code point replaced by a question
    mark. *)
Definition encode_ascii_replace (s : pystring) : result string :=
  match s with
  | Str b => if Py.all_chars Py.is_ascii b then Ok b else Raise UnicodeDecodeError
  | UStr u =>
      Ok (string_of_list_ascii
            (map (λ cp, if (cp <? 128)%N then ascii_of_N cp else question) u))
  end.

Definition falsy (s : pystring) : bool :=
  match s with
  | Str EmptyString | UStr [] => true
  | _ => false
  end.

(** The first [badchar], a raw string literal, so its backslash stays:
    question mark, star, double quote, backslash, single quote, bang,
    angle brackets and parentheses. *)
Definition badchar_deleted : list ascii :=
  [ascii_of_nat 63; ascii_of_nat 42; ascii_of_nat 34; ascii_of_nat 92;
   ascii_of_nat 39; ascii_of_nat 33; ascii_of_nat 60; ascii_of_nat 62;
   ascii_of_nat 40; ascii_of_nat 41].

(** The second [badchar]: colon, slash, backslash and hash. *)
Definition badchar_dashed : list ascii :=
  [ascii_of_nat 58; ascii_of_nat 47; ascii_of_nat 92; ascii_of_nat 35].

Definition dash : ascii := ascii_of_nat 45.

Definition filesafe (s : pystring) : result string :=
  if falsy s then Ok EmptyString
  else
    s ← encode_ascii_replace s;
    let s := fold_left (λ s c, Py.delete_char c s) badchar_deleted s in
    let s := fold_left (λ s c, Py.replace_char c dash s) badchar_dashed s in
    Ok s.

(** ** [re_mux] *)

(** [metadata_bag]: a dictionary, listed in the order [iteritems] yields it. *)
Definition bag : Type := list (string * string).

Fixpoint bag_get (b : bag) (key : string) : result string :=
  match b with
  | [] => Raise (KeyError key)
  | (k, v) :: b' => if String.eqb k key then Ok v else bag_get b' key
  end.

Definition bag_has (b : bag) (key : string) : bool :=
  match bag_get b key with Ok _ => true | Raise _ => false end.

(** What one run of the child process hands back:
    [child.communicate()] and [child.wait()]. *)
Record outcome := Outcome {
  status : Z;
  child_stdout : string;
  child_stderr : string
}.

Definition re_mux_outfile (metadata_bag : bag) : result string :=
  if bag_has metadata_bag "episode_id" then
    episode_id ← bag_get metadata_bag "episode_id";
    title ← bag_get metadata_bag "title";
    filesafe (Str (episode_id +:+ " " +:+ title +:+ ".mp4"))
  else
    title ← bag_get metadata_bag "title";
    filesafe (Str (title +:+ ".mp4")).

Definition metadata_args (metadata_bag : bag) : list string :=
  flat_map (λ kv, ["-metadata"; fst kv +:+ "=" +:+ snd kv]) metadata_bag.

(** The argument vector of one attempt. *)
Definition re_mux_cmd (tmpfile : string) (map_args : list string)
    (metadata_bag : bag) (streams : list Stream) (outfile : string)
    : list string :=
  ["ffmpeg"; "-probesize"; "200M"; "-analyzeduration"; "120M"; "-i"; tmpfile]
  ++ map_args
  ++ ["-c"; "copy"]
  ++ ["-y"]
  ++ metadata_args metadata_bag
  ++ stream_language_tags streams
  ++ [outfile].

Definition dts_re : Re.pattern := [Re.Lit "non monotonically increasing dts"].

Definition codec_re : Re.pattern :=
  [Re.Lit "Could not find codec parameters for stream "; Re.Run true Py.is_digit].

Definition stream_re : Re.pattern := [Re.Lit "Stream #0:"; Re.Run true Py.is_digit].

(** The [for line in stderr.split('\n')] loop that rebuilds [map_args]. *)
Fixpoint exclude_bad_stream (lines : list string) (bad_stream : string)
    (map_args : list string) : list string :=
  match lines with
  | [] => map_args
  | line :: lines' =>
      if Py.startswith line "Output #0" then map_args
      else
        match Re.search stream_re line with
        | Some m =>
            if negb (String.eqb (Re.group m 1) bad_stream)
            then exclude_bad_stream lines' bad_stream
                   (map_args ++ ["-map"; "0:" +:+ Re.group m 1])
            else exclude_bad_stream lines' bad_stream map_args
        | None => exclude_bad_stream lines' bad_stream map_args
        end
  end.

(** How one pass through the body of [while True] ends. *)
Inductive loop_ctl :=
| Break
| Continue (map_args : list string).

(** The body of the loop from the child's exit onwards. *)
Definition re_mux_after (tmpfile : string) (cmd : list string) (o : outcome)
    : py loop_ctl :=
  if status o =? 0 then
    msg "ffmpeg returned ok";;
    msg ("Deleting input file " +:+ tmpfile);;
    unlink tmpfile;;
    mret Break
  else
    (if status o <? 0 then
       msg ("ffmpeg terminated by signal " +:+ Py.str_of_int (- status o))
     else if status o >? 0 then
       msg ("ffmpeg returned error status " +:+ Py.str_of_int (status o))
     else mret ());;
    match Re.search dts_re (child_stderr o) with
    | Some _ =>
        msg "Subtitles are impossible to represent in mpeg.";;
        msg "Trying again with no subtitles.";;
        mret (Continue ["-map"; "0:v"; "-map"; "0:a"])
    | None =>
        match Re.search codec_re (child_stderr o) with
        | Some m =>
            let bad_stream := Re.group m 1 in
            msg ("Cannot interpret stream " +:+ bad_stream +:+ ".");;
            msg "Trying again with that stream excluded.";;
            mret (Continue
                    (exclude_bad_stream (Py.split_nl (child_stderr o)) bad_stream []))
        | None =>
            msg "Unrecoverable error in ffmpeg.";;
            msg ("Leaving input file " +:+ tmpfile +:+ " behind.");;
            msg "Dumping stdout, stderr, and sh command to ffmpeg.*";;
            write_file "ffmpeg.stdout" (child_stdout o);;
            write_file "ffmpeg.stderr" (child_stderr o);;
            write_file "ffmpeg.sh" (Py.join " " cmd);;
            die "Good luck!"
        end
    end.

(** How a run of the loop against a finite script of child outcomes ends:
    the loop was left by [break], or the script ran out while the loop was
    about to make another attempt with the given [map_args]. *)
Inductive loop_end :=
| Left_loop
| Still_looping (map_args : list string).

(** [while True]: one child process per pass; [script] lists what the
    successive children hand back. *)
Fixpoint re_mux_loop (script : list outcome) (tmpfile : string)
    (metadata_bag : bag) (streams : list Stream) (outfile : string)
    (map_args : list string) : py loop_end :=
  match script with
  | [] => mret (Still_looping map_args)
  | o :: script' =>
      let cmd := re_mux_cmd tmpfile map_args metadata_bag streams outfile in
      spawn cmd;;
      ctl ← re_mux_after tmpfile cmd o;
      match ctl with
      | Break => mret Left_loop
      | Continue map_args' =>
          re_mux_loop script' tmpfile metadata_bag streams outfile map_args'
      end
  end.

(** [re_mux(tmpfile, metadata_bag)]; [streams] is the global the script
    reads. *)
Definition re_mux (script : list outcome) (streams : list Stream)
    (tmpfile : string) (metadata_bag : bag) : py loop_end :=
  outfile ← lift (re_mux_outfile metadata_bag);
  re_mux_loop script tmpfile metadata_bag streams outfile ["-map"; "0"].

(** ** The choice of tracks in [__main__] *)

(** [s.split()]: the maximal runs of non-whitespace characters. *)
Fixpoint split_ws_from (cur : string) (s : string) : list string :=
  match s with
  | EmptyString => match cur with EmptyString => [] | _ => [cur] end
  | String c s' =>
      if Ascii.is_space c then
        match cur with
        | EmptyString => split_ws_from EmptyString s'
        | _ => cur :: split_ws_from EmptyString s'
        end
      else split_ws_from (cur +:+ String c EmptyString) s'
  end.

Definition split_ws (s : string) : list string := split_ws_from EmptyString s.

(** [int(s)] on a whitespace-free token: an optional sign and one or more
    ASCII digits; anything else is a [ValueError]. *)
Definition py_int (s : string) : result Z :=
  let digits_of d :=
    match d with
    | EmptyString => None
    | _ => if Py.all_chars Py.is_digit d then Some (Py.int_of_digits d) else None
    end in
  let signed :=
    match s with
    | String c d =>
        if Ascii.eqb c "-" then option_map Z.opp (digits_of d)
        else if Ascii.eqb c "+" then digits_of d
        else digits_of s
    | EmptyString => None
    end in
  match signed with
  | Some z => Ok z
  | None => Raise (ValueError s)
  end.

(** [map(int, l)]. *)
Fixpoint map_int (l : list string) : result (list Z) :=
  match l with
  | [] => Ok []
  | s :: l' => z ← py_int s; zs ← map_int l'; Ok (z :: zs)
  end.

(** From [tracks = read_toc(len(titles))] to the check of the track count;
    [reply] is the line read from standard input, [None] when the read is
    interrupted from the keyboard. *)
Definition main_tracks (toc : list string) (titles : list string)
    (reply : option string) : py (list Z) :=
  tracks ← read_toc toc (length titles);
  msg (nl +:+ "Default tracks: " +:+ Py.join " " (map Py.str_of_int tracks) +:+ nl);;
  msg "Enter to continue, type new track numbers, or Ctrl-C.";;
  new_tracks ← match reply with
               | Some line => mret line
               | None => die "Bye Bye"
               end;
  let new_tracks := Py.strip new_tracks in
  tracks ← match new_tracks with
           | EmptyString => mret tracks
           | _ => lift (map_int (split_ws new_tracks))
           end;
  if negb (length tracks =? length titles)%nat then
    die ("selected " +:+ Py.str_of_int (Z.of_nat (length tracks))
         +:+ " tracks to rip, but number of tags is "
         +:+ Py.str_of_int (Z.of_nat (length titles)))
  else mret tracks.

(** ** Reading a [-map] argument list

    What the multiplexer takes a stream specifier of the first input to
    select, after its manual: [0] is every stream, [0:v], [0:a] and [0:s]
    the streams of one kind, [0:i] the stream of index [i]. *)

Inductive media := Video | Audio | Subtitle | Data.

#[global] Instance media_eq_dec : EqDecision media.
Proof. solve_decision. Defined.

Definition specifier_selects (spec : string) (index : Z) (kind : media) : bool :=
  if String.eqb spec "0" then true
  else if String.eqb spec "0:v" then bool_decide (kind = Video)
  else if String.eqb spec "0:a" then bool_decide (kind = Audio)
  else if String.eqb spec "0:s" then bool_decide (kind = Subtitle)
  else
    match Py.strip_prefix "0:" spec with
    | Some i =>
        match i with
        | EmptyString => false
        | _ => Py.all_chars Py.is_digit i && (Py.int_of_digits i =? index)
        end
    | None => false
    end.

Fixpoint map_selects (map_args : list string) (index : Z) (kind : media) : bool :=
  match map_args with
  | flag :: spec :: rest =>
      (String.eqb flag "-map" && specifier_selects spec index kind)
      || map_selects rest index kind
  | _ => false
  end.

(** ** Vocabulary of the statements *)

(** Filtering and mapping the characters of a string. *)
Fixpoint sfilter (f : ascii → bool) (s : string) : string :=
  match s with
  | EmptyString => EmptyString
  | String a s' => if f a then String a (sfilter f s') else sfilter f s'
  end.

Fixpoint smap (g : ascii → ascii) (s : string) : string :=
  match s with
  | EmptyString => EmptyString
  | String a s' => String (g a) (smap g s')
  end.

(** What the two loops of [filesafe] do to one character. *)
Definition kept (a : ascii) : bool :=
  forallb (λ c, negb (Ascii.eqb a c)) badchar_deleted.

Definition dashed (a : ascii) : ascii :=
  fold_left (λ a c, if Ascii.eqb a c then dash else a) badchar_dashed a.

(** A sanitized name: plain ASCII, and no character that either loop
    would touch. *)
Definition sanitized_char (a : ascii) : bool :=
  Py.is_ascii a && kept a && Ascii.eqb (dashed a) a.


(** What a line of the dump log says, if it has one of the two shapes:
    the kind of stream, its format and its short language code. *)
Definition line_shape (line : string) : option (stream_type * option string * string) :=
  match Re.rmatch audio_re line with
  | Some m => Some (audio, Some (Re.group m 1 +:+ ":" +:+ Re.group m 2), Re.group m 3)
  | None =>
      match Re.rmatch subtitle_re line with
      | Some m => Some (subtitle, None, Re.group m 1)
      | None => None
      end
  end.

Definition is_audio_line (line : string) : bool :=
  bool_decide (is_Some (Re.rmatch audio_re (Py.strip line))).

Definition is_subtitle_line (line : string) : bool :=
  bool_decide (is_Some (Re.rmatch subtitle_re (Py.strip line))).

(** The short language code a log line carries. *)
Definition line_code (line : string) : option string :=
  snd <$> line_shape (Py.strip line).

(** The descriptor a log line stands for, when its code is in the table. *)
Definition line_stream (line : string) : option Stream :=
  match line_shape (Py.strip line) with
  | Some (k, f, c) => mkStream k f <$> lang_iso_code !! c
  | None => None
  end.

(** The notice [parse_metadata] prints for a descriptor. *)
Definition notice (s : Stream) : string :=
  Py.join EmptyString [esc +:+ "[92m"; "Spotted stream: " +:+ Stream_str s; esc +:+ "[0m"; nl].

Definition add_stdout (texts : list string) (w : world) : world :=
  World (fs w) (sys_stdout w ++ texts) (sys_stderr w) (spawned w).

(** A log line is resolvable when it has neither shape, or its short code
    is a key of [lang_iso_code]. *)
Definition resolvable (line : string) : bool :=
  match line_code line with
  | Some c => bool_decide (is_Some (lang_iso_code !! c))
  | None => true
  end.

Definition count_lines (shape : string → bool) (log : list string) : nat :=
  length (List.filter shape log).

(** The keys of [lang_iso_code] as the script lists them. *)
Definition short_codes : list string :=
  ["ar"; "cy"; "de"; "en"; "es"; "fa"; "fr"; "ga"; "he"; "ja"; "ko"; "pt";
   "ru"; "zh"; "unknown"].

(** The text [msg] writes for [s]. *)
Definition coloured (s : string) : string :=
  Py.join EmptyString [esc +:+ "[92m"; s; esc +:+ "[0m"; nl].

(** The notice about the child's exit status. *)
Definition status_notice (st : Z) : list string :=
  if st <? 0 then [coloured ("ffmpeg terminated by signal " +:+ Py.str_of_int (- st))]
  else if st >? 0 then [coloured ("ffmpeg returned error status " +:+ Py.str_of_int st)]
  else [].

(** The three files left behind after a failure that is not understood. *)
Definition with_diagnostics (cmd : list string) (o : outcome)
    (files : gmap string string) : gmap string string :=
  <["ffmpeg.sh" := Py.join " " cmd]>
    (<["ffmpeg.stderr" := child_stderr o]>
       (<["ffmpeg.stdout" := child_stdout o]> files)).

(** A failure the loop knows how to answer: a non-zero status and one of
    the two signatures on standard error. *)
Definition recoverable (o : outcome) : bool :=
  negb (status o =? 0)
  && (bool_decide (is_Some (Re.search dts_re (child_stderr o)))
      || bool_decide (is_Some (Re.search codec_re (child_stderr o)))).

(** The command line of an attempt, whatever its [map_args]. *)
Definition is_attempt (tmpfile : string) (metadata_bag : bag)
    (streams : list Stream) (outfile : string) (cmd : list string) : Prop :=
  ∃ map_args, cmd = re_mux_cmd tmpfile map_args metadata_bag streams outfile.

(** The lines of the child's diagnostics that come before its first line
    starting the output section. *)
Fixpoint before_output (lines : list string) : list string :=
  match lines with
  | [] => []
  | line :: lines' =>
      if Py.startswith line "Output #0" then [] else line :: before_output lines'
  end.

(** The stream index a diagnostic line lists: the digits after the first
    [Stream #0:] that is followed by a digit. *)
Definition listed_index (line : string) : option string :=
  (λ groups, Re.group groups 1) <$> Re.search stream_re line.

(** Index [i] is listed on line number [k] of the diagnostics, and no line
    up to there starts the output section. *)
Definition listed_before_output (err : string) (i : string) : Prop :=
  ∃ k line,
    Py.split_nl err !! k = Some line
    ∧ (∀ j l, (j ≤ k)%nat → Py.split_nl err !! j = Some l →
              Py.startswith l "Output #0" = false)
    ∧ listed_index line = Some i.

(** The [-map] arguments that select exactly the listed indices. *)
Definition map_of_indices (indices : list string) : list string :=
  flat_map (λ i, ["-map"; "0:" +:+ i]) indices.

(** The directive that tags a stream, given its position among the
    streams of its kind. *)
Definition kind_letter (t : stream_type) : string :=
  match t with audio => "a" | subtitle => "s" end.

Definition language_tag (s : Stream) (ordinal : nat) : list string :=
  ["-metadata:s:" +:+ kind_letter (type s) +:+ ":" +:+ Py.str_of_int (Z.of_nat ordinal);
   "language=" +:+ language s].

Definition count_kind (t : stream_type) (streams : list Stream) : nat :=
  length (List.filter (λ s, bool_decide (type s = t)) streams).

(** The number of streams of the kind of [s] among the first [i]. *)
Definition kind_ordinal (streams : list Stream) (i : nat) (s : Stream) : nat :=
  count_kind (type s) (take i streams).

(** A child failing with the timestamp signature; one that succeeds. *)
Definition dts_failure : outcome :=
  Outcome 1 EmptyString
    "[mp4 @ 0x55d0] Application provided invalid, non monotonically increasing dts to muxer in stream 2: 900 >= 900".

Definition success : outcome := Outcome 0 EmptyString EmptyString.

Definition dump_only (tmpfile : string) : world :=
  World {[tmpfile := "VOB"]} [] [] [].

(** The indices the rebuilt map keeps: those listed before the output
    section, in the order listed, except the one the tool named. *)
Definition kept_indices (err bad_stream : string) : list string :=
  List.filter (λ i, negb (String.eqb i bad_stream))
    (omap listed_index (before_output (Py.split_nl err))).




(** The entries of the table of contents, in the order of its lines. *)
Definition toc_entries (toc : list string) : list toc_entry :=
  omap (λ line, toc_line_entry (Py.strip line)) toc.

(** ** Sample inputs *)

(** What the multiplexer prints when it cannot make out stream 3: its
    listing of the input, the complaint, and the start of the output
    section. *)
Definition codec_stderr : string :=
  Py.join nl
    ["Input #0, mpeg, from 'dvdrip.abcdef.vob':";
     "  Duration: 00:43:05.12, start: 0.280633, bitrate: 5924 kb/s";
     "    Stream #0:0[0x1bf]: Data: dvd_nav_packet";
     "    Stream #0:1[0x1e0]: Video: mpeg2video (Main), yuv420p(tv), 720x480";
     "    Stream #0:2[0x80]: Audio: ac3, 48000 Hz, 5.1(side), fltp, 448 kb/s";
     "    Stream #0:3[0x81]: Audio: none, 0 channels";
     "    Stream #0:4[0x20]: Subtitle: dvd_subtitle";
     "[mpeg @ 0x5581] Could not find codec parameters for stream 3 (Audio: none, 0 channels): unspecified sample format";
     "Output #0, mp4, to 'T.mp4':";
     "    Stream #0:0: Video: mpeg2video (Main)";
     "    Stream #0:3: Audio: none"].

Definition codec_failure : outcome := Outcome 1 EmptyString codec_stderr.

(** A failure whose diagnostics carry both signatures. *)
Definition both_failure : outcome :=
  Outcome 1 EmptyString (codec_stderr +:+ nl +:+ child_stderr dts_failure).

(** A failure with neither signature, ended by a signal. *)
Definition unknown_failure : outcome :=
  Outcome (-11) "frame=  100" "Segmentation fault".

Definition sample_streams : list Stream :=
  [mkStream audio (Some "ac3:5.1") "eng"; mkStream subtitle None "fra"].

Definition sample_log : list string :=
  ["Playing dvd://1.";
   "audio stream: 0 format: ac3 (5.1) language: en aid: 128.";
   "audio stream: 1 format: ac3 (stereo) language: unknown aid: 129.";
   "number of audio channels on disk: 2.";
   "subtitle ( sid ): 0 language: fr";
   "number of subtitles on disk: 1"].

Definition unknown_code_log : list string :=
  ["audio stream: 0 format: ac3 (5.1) language: en aid: 128.";
   "subtitle ( sid ): 0 language: tlh"].

(** Titles of 10, 90, 45, 90 and 5 minutes. *)
Definition sample_toc : list string :=
  ["Disc Title: SAMPLE";
   "Title: 01, Length: 00:10:00.000 Chapters: 02, Cells: 02, Audio streams: 01, Subpictures: 00";
   "Title: 02, Length: 01:30:00.000 Chapters: 12, Cells: 12, Audio streams: 02, Subpictures: 01";
   "Title: 03, Length: 00:45:00.000 Chapters: 06, Cells: 06, Audio streams: 02, Subpictures: 01";
   "Title: 04, Length: 01:30:00.000 Chapters: 12, Cells: 12, Audio streams: 02, Subpictures: 01";
   "Title: 05, Length: 00:05:00.000 Chapters: 01, Cells: 01, Audio streams: 01, Subpictures: 00";
   "Longest track: 02"].

Definition empty_world : world := World ∅ [] [] [].

(** ** Further vocabulary *)

Fixpoint has_char (c : ascii) (s : string) : bool :=
  match s with
  | EmptyString => false
  | String a s' => Ascii.eqb a c || has_char c s'
  end.

Definition quote : string := String (ascii_of_nat 34) EmptyString.

(** What [filesafe] makes of one character: nothing, a dash, or the
    character itself. *)
Definition sanitize_char (a : ascii) : string :=
  if has_char a ("?*" +:+ quote +:+ "\'!<>()") then EmptyString
  else if has_char a ":/#" then "-"
  else String a EmptyString.

Fixpoint sanitize (s : string) : string :=
  match s with
  | EmptyString => EmptyString
  | String a s' => sanitize_char a +:+ sanitize s'
  end.

Definition sample_title : string := "The Show: " +:+ quote +:+ "Pilot" +:+ quote +:+ "?".

(** [s.endswith(suffix)], as a proposition. *)
Definition ends_with (s suffix : string) : Prop := ∃ stem, s = stem +:+ suffix.

Definition titled_bag : bag := [("title", "A/B: C"); ("description", "audio ac3:5.1 eng")].

Definition untitled_bag : bag := [("description", "audio ac3:5.1 eng"); ("episode_id", "s01e02")].

(** Diagnostics that list no stream but the one the tool cannot make out. *)
Definition lone_stream_stderr : string :=
  Py.join nl
    ["Input #0, mpeg, from 'dvdrip.abcdef.vob':";
     "    Stream #0:0[0x80]: Audio: none, 0 channels";
     "[mpeg @ 0x5581] Could not find codec parameters for stream 0 (Audio: none, 0 channels): unspecified sample format";
     "Output #0, mp4, to 'T.mp4':";
     "    Stream #0:1: Video: mpeg2video (Main)"].

(** The flag that addresses the [k]-th output stream of a kind, and the
    flags of a kind among a list of arguments. *)
Definition tag_flag (t : stream_type) (k : nat) : string :=
  "-metadata:s:" +:+ kind_letter t +:+ ":" +:+ Py.str_of_int (Z.of_nat k).

Definition flags_of (t : stream_type) (args : list string) : list string :=
  List.filter (λ a, Py.startswith a ("-metadata:s:" +:+ kind_letter t +:+ ":")) args.

(** A log line with whitespace put around it. *)
Definition padded (line' line : string) : Prop :=
  ∃ before after,
    Py.all_chars Ascii.is_space before = true
    ∧ Py.all_chars Ascii.is_space after = true
    ∧ line' = before +:+ line +:+ after.

Definition tab : string := String (ascii_of_nat 9) EmptyString.

(** ** [mktemp] *)

Definition alphabet : string := "abcdefghijklmnopqrstuvwxyz".

(** [random.choice(seq)]: the character of [seq] at the index drawn,
    which is below the length of [seq]. *)
Definition choice (seq : string) (draw : nat) : string :=
  match String.get (draw mod String.length seq) seq with
  | Some c => String c EmptyString
  | None => EmptyString
  end.

(** The [for i in range(6)] loop; [draws i] is the [i]-th draw of the
    random generator. *)
Fixpoint mktemp_loop (draws : nat → nat) (i n : nat) (path : list string)
    : list string :=
  match n with
  | O => path
  | S n' => mktemp_loop draws (S i) n' (path ++ [choice alphabet (draws i)])
  end.

Definition mktemp (draws : nat → nat) : string :=
  Py.join EmptyString (mktemp_loop draws 0 6 ["dvdrip."] ++ [".vob"]).

Definition is_lower (c : ascii) : bool := (Ascii.leb "a" c && Ascii.leb c "z")%char.

(** The text does not go on with a character of the class. *)
Definition stops (cls : ascii → bool) (s : string) : bool :=
  match s with
  | EmptyString => true
  | String c _ => negb (cls c)
  end.

Definition nonempty (s : string) : bool :=
  match s with EmptyString => false | _ => true end.

(** ** The arguments of [__main__] *)

(** [s.split(sep)] for a one-character separator. *)
Fixpoint split_on (sep : ascii) (s : string) : list string :=
  match s with
  | EmptyString => [EmptyString]
  | String c s' =>
      if Ascii.eqb c sep then EmptyString :: split_on sep s'
      else match split_on sep s' with
           | l :: ls => String c l :: ls
           | [] => [String c EmptyString]
           end
  end.

Definition bar : ascii := ascii_of_nat 124.

(** From [if not ARGS.title] to the check of the two counts; [title] is
    [None] when the option was not given, [episodes] is empty by
    default. *)
Definition main_args (title : option string) (episodes : string)
    : py (list string * list string) :=
  match title with
  | None | Some EmptyString => die "must supply title"
  | Some title =>
      let titles := split_on bar title in
      let episodes := split_on bar episodes in
      if negb (length titles =? length episodes)%nat then
        die ("got " +:+ Py.str_of_int (Z.of_nat (length titles))
             +:+ " titles, but " +:+ Py.str_of_int (Z.of_nat (length episodes))
             +:+ " episode IDs")
      else mret (titles, episodes)
  end.

Fixpoint count_char (c : ascii) (s : string) : nat :=
  match s with
  | EmptyString => O
  | String a s' => ((if Ascii.eqb a c then 1 else 0) + count_char c s')%nat
  end.

(** ** A dump with three audio tracks, the second of them unreadable *)

Definition three_audio : list Stream :=
  [mkStream audio (Some "ac3:5.1") "eng";
   mkStream audio (Some "ac3:stereo") "fra";
   mkStream audio (Some "ac3:stereo") "spa"].

(** The multiplexer lists the video stream and the three audio streams
    and cannot make out stream 2, the French track. *)
Definition french_track_stderr : string :=
  Py.join nl
    ["Input #0, mpeg, from 'dvdrip.abcdef.vob':";
     "    Stream #0:0[0x1e0]: Video: mpeg2video (Main), yuv420p(tv), 720x480";
     "    Stream #0:1[0x80]: Audio: ac3, 48000 Hz, 5.1(side), fltp, 448 kb/s";
     "    Stream #0:2[0x81]: Audio: none, 0 channels";
     "    Stream #0:3[0x82]: Audio: ac3, 48000 Hz, stereo, fltp, 192 kb/s";
     "[mpeg @ 0x5581] Could not find codec parameters for stream 2 (Audio: none, 0 channels): unspecified sample format";
     "Output #0, mp4, to 'T.mp4':";
     "    Stream #0:0: Video: mpeg2video (Main)"].

Definition french_track_failure : outcome :=
  Outcome 1 EmptyString french_track_stderr.
(** * Properties *)

(** ** Strings *)



Lemma ascii_cases (P : ascii → bool) :
  forallb P (map ascii_of_nat (seq 0 256)) = true → ∀ c, P c = true.
Proof.
  intros H c. rewrite forallb_forall in H. apply H.
  rewrite <- (ascii_nat_embedding c). apply in_map, in_seq.
  pose proof (nat_ascii_bounded c). lia.
Qed.

Lemma delete_char_sfilter c s :
  Py.delete_char c s = sfilter (λ a, negb (Ascii.eqb a c)) s.
Proof. induction s as [|a s IH]; simpl; [done|]. rewrite IH. by destruct (Ascii.eqb a c). Qed.

Lemma sfilter_sfilter f g s :
  sfilter g (sfilter f s) = sfilter (λ a, f a && g a) s.
Proof.
  induction s as [|a s IH]; simpl; [done|].
  destruct (f a); simpl; [destruct (g a)|]; by rewrite IH.
Qed.

Lemma sfilter_ext f g s : (∀ a, f a = g a) → sfilter f s = sfilter g s.
Proof. intros E. induction s as [|a s IH]; simpl; [done|]. by rewrite E, IH. Qed.

Lemma smap_smap f g s : smap g (smap f s) = smap (λ a, g (f a)) s.
Proof. induction s as [|a s IH]; simpl; [done|]. by rewrite IH. Qed.

Lemma smap_ext f g s : (∀ a, f a = g a) → smap f s = smap g s.
Proof. intros E. induction s as [|a s IH]; simpl; [done|]. by rewrite E, IH. Qed.

Lemma replace_char_smap c d s :
  Py.replace_char c d s = smap (λ a, if Ascii.eqb a c then d else a) s.
Proof. induction s as [|a s IH]; simpl; [done|]. by rewrite IH. Qed.

Lemma sfilter_id f s : Py.all_chars f s = true → sfilter f s = s.
Proof.
  induction s as [|a s IH]; simpl; [done|].
  intros [Ha Hs]%andb_prop. rewrite Ha. by rewrite IH.
Qed.

Lemma smap_id (g : ascii → ascii) s :
  Py.all_chars (λ a, Ascii.eqb (g a) a) s = true → smap g s = s.
Proof.
  induction s as [|a s IH]; simpl; [done|].
  intros [Ha Hs]%andb_prop. apply Ascii.eqb_eq in Ha. by rewrite Ha, IH.
Qed.

Lemma all_chars_sfilter f P s :
  (∀ a, f a = true → P a = true) → Py.all_chars P (sfilter f s) = true.
Proof.
  intros H. induction s as [|a s IH]; simpl; [done|].
  destruct (f a) eqn:E; simpl; [|done]. by rewrite (H a E), IH.
Qed.

Lemma all_chars_smap g P Q s :
  (∀ a, P a = true → Q (g a) = true) →
  Py.all_chars P s = true → Py.all_chars Q (smap g s) = true.
Proof.
  intros H. induction s as [|a s IH]; simpl; [done|].
  intros [Ha Hs]%andb_prop. by rewrite (H a Ha), IH.
Qed.

Lemma all_chars_and P Q s :
  Py.all_chars (λ a, P a && Q a) s = Py.all_chars P s && Py.all_chars Q s.
Proof.
  induction s as [|a s IH]; simpl; [done|]. rewrite IH.
  destruct (P a), (Q a), (Py.all_chars P s); simpl; auto.
Qed.

(** ** [filesafe] *)


Lemma filesafe_delete_loop s :
  fold_left (λ s c, Py.delete_char c s) badchar_deleted s = sfilter kept s.
Proof.
  unfold badchar_deleted. cbn [fold_left].
  rewrite !delete_char_sfilter, !sfilter_sfilter.
  apply sfilter_ext. intros a. unfold kept, badchar_deleted. cbn [forallb].
  by rewrite andb_true_r, !andb_assoc.
Qed.

Lemma filesafe_dash_loop s :
  fold_left (λ s c, Py.replace_char c dash s) badchar_dashed s = smap dashed s.
Proof.
  unfold badchar_dashed. cbn [fold_left].
  rewrite !replace_char_smap, !smap_smap. by apply smap_ext.
Qed.


Lemma sanitized_char_dashed a :
  Py.is_ascii a && kept a = true → sanitized_char (dashed a) = true.
Proof.
  intros Ha.
  generalize (ascii_cases (λ a, implb (Py.is_ascii a && kept a)
                                   (sanitized_char (dashed a)))
                ltac:(by vm_compute) a).
  cbv beta. by rewrite Ha.
Qed.

Lemma filesafe_spec (s : pystring) :
  filesafe s =
    if falsy s then Ok EmptyString
    else e ← encode_ascii_replace s; Ok (smap dashed (sfilter kept e)).
Proof.
  unfold filesafe. destruct (falsy s); [done|].
  destruct (encode_ascii_replace s) as [e|]; [|done].
  unfold mbind, result_bind.
  by rewrite filesafe_delete_loop, filesafe_dash_loop.
Qed.

Lemma encode_ascii_replace_ascii s e :
  encode_ascii_replace s = Ok e → Py.all_chars Py.is_ascii e = true.
Proof.
  destruct s as [b|u]; simpl.
  - destruct (Py.all_chars Py.is_ascii b) eqn:E; [|done]. by intros [= <-].
  - intros [= <-]. induction u as [|cp u IH]; simpl; [done|].
    rewrite IH, andb_true_r. destruct (N.ltb_spec cp 128); [|done].
    unfold Py.is_ascii. apply Nat.ltb_lt.
    unfold nat_of_ascii. rewrite N_ascii_embedding by lia. lia.
Qed.

Lemma filesafe_sanitized s r :
  filesafe s = Ok r → Py.all_chars sanitized_char r = true.
Proof.
  rewrite filesafe_spec. destruct (falsy s); [by intros [= <-]|].
  destruct (encode_ascii_replace s) as [e|] eqn:E; simpl; [|done].
  intros [= <-]. apply encode_ascii_replace_ascii in E.
  apply all_chars_smap with (P := λ a, Py.is_ascii a && kept a).
  - apply sanitized_char_dashed.
  - rewrite all_chars_and. apply andb_true_intro. split.
    + clear -E. induction e as [|a e IH]; simpl in *; [done|].
      apply andb_prop in E as [Ha He]. destruct (kept a); simpl; auto.
      by rewrite Ha, IH.
    + by apply all_chars_sfilter.
Qed.

Lemma filesafe_fixed r :
  Py.all_chars sanitized_char r = true → filesafe (Str r) = Ok r.
Proof.
  intros H. rewrite filesafe_spec. destruct r as [|a r]; [done|].
  cbn [falsy]. unfold sanitized_char in H. rewrite !all_chars_and in H.
  apply andb_prop in H as [[H1 H2]%andb_prop H3].
  cbn [encode_ascii_replace]. rewrite H1. unfold mbind, result_bind.
  rewrite (sfilter_id _ _ H2). by rewrite (smap_id _ _ H3).
Qed.

(** C10.  Sanitizing twice is sanitizing once: running [filesafe] on what
    [filesafe] returned gives the same name back, and where the first pass
    raises there is nothing for a second pass to change. *)
Theorem filesafe_idempotent (s : pystring) :
  (r ← filesafe s; filesafe (Str r)) = filesafe s.
Proof.
  destruct (filesafe s) as [r|e] eqn:E; simpl; [|done].
  apply filesafe_fixed. by apply filesafe_sanitized in E.
Qed.

(** ** [parse_metadata] *)

Lemma strip_prefix_head a p b s r :
  Py.strip_prefix (String a p) (String b s) = Some r → a = b.
Proof. simpl. destruct (Ascii.eqb_spec a b); [done|discriminate]. Qed.

Lemma audio_subtitle_exclusive line m :
  Re.rmatch audio_re line = Some m → Re.rmatch subtitle_re line = None.
Proof.
  unfold Re.rmatch, audio_re, subtitle_re. cbn [Re.match_at].
  destruct (Py.strip_prefix "audio stream: " line) as [r|] eqn:E; [|done].
  intros _. destruct line as [|c line]; [done|].
  apply strip_prefix_head in E as <-. reflexivity.
Qed.

Lemma add_stdout_nil w : add_stdout [] w = w.
Proof. destruct w. unfold add_stdout. simpl. by rewrite app_nil_r. Qed.

Lemma add_stdout_app a b w : add_stdout b (add_stdout a w) = add_stdout (a ++ b) w.
Proof. unfold add_stdout. simpl. by rewrite app_assoc. Qed.

Lemma parse_metadata_line_spec line streams w :
  parse_metadata_line line streams w =
    match line_shape (Py.strip line) with
    | None => (Ok streams, w)
    | Some (k, f, c) =>
        match lang_iso_code !! c with
        | Some l =>
            (Ok (streams ++ [mkStream k f l]), add_stdout [notice (mkStream k f l)] w)
        | None => (Raise (KeyError c), w)
        end
    end.
Proof.
  unfold parse_metadata_line, line_shape.
  destruct (Re.rmatch audio_re (Py.strip line)) as [m|] eqn:Ea.
  - rewrite (audio_subtitle_exclusive _ _ Ea).
    unfold getitem. destruct (lang_iso_code !! Re.group m 3); reflexivity.
  - destruct (Re.rmatch subtitle_re (Py.strip line)) as [m|]; [|reflexivity].
    unfold getitem. destruct (lang_iso_code !! Re.group m 1); reflexivity.
Qed.

Lemma line_stream_resolvable line :
  resolvable line = true →
  line_stream line = None → line_shape (Py.strip line) = None.
Proof.
  unfold resolvable, line_code, line_stream.
  destruct (line_shape (Py.strip line)) as [[[k f] c]|]; simpl; [|done].
  intros [l Hl]%bool_decide_eq_true. by rewrite Hl.
Qed.

Lemma parse_metadata_from_ok log : ∀ streams w,
  forallb resolvable log = true →
  parse_metadata_from log streams w =
    (Ok (streams ++ omap line_stream log),
     add_stdout (map notice (omap line_stream log)) w).
Proof.
  induction log as [|line log IH]; intros streams w Hres.
  - simpl. by rewrite app_nil_r, add_stdout_nil.
  - simpl in Hres. apply andb_prop in Hres as [Hl Hlog].
    cbn [parse_metadata_from]. unfold mbind at 1, py_bind.
    rewrite parse_metadata_line_spec. cbn [omap list_omap].
    pose proof (line_stream_resolvable line Hl) as Hnone.
    unfold line_stream in *.
    destruct (line_shape (Py.strip line)) as [[[k f] c]|] eqn:Es.
    + destruct (lang_iso_code !! c) as [l|] eqn:El.
      * simpl. rewrite IH by done. rewrite add_stdout_app.
        by rewrite <- app_assoc.
      * by specialize (Hnone eq_refl).
    + by rewrite IH.
Qed.

Lemma parse_metadata_from_raise log : ∀ streams w,
  forallb resolvable log = false →
  ∃ c w', parse_metadata_from log streams w = (Raise (KeyError c), w')
          ∧ lang_iso_code !! c = None.
Proof.
  induction log as [|line log IH]; intros streams w Hres; [done|].
  simpl in Hres. cbn [parse_metadata_from]. unfold mbind at 1, py_bind.
  rewrite parse_metadata_line_spec.
  unfold resolvable at 1, line_code in Hres.
  destruct (line_shape (Py.strip line)) as [[[k f] c]|] eqn:Es; simpl in Hres.
  - destruct (lang_iso_code !! c) as [l|] eqn:El.
    + rewrite bool_decide_eq_true_2 in Hres by eauto. by apply IH.
    + by exists c, w.
  - by apply IH.
Qed.

Lemma shape_of_line line :
  resolvable line = true →
  match line_stream line with
  | Some s => xorb (is_audio_line line) (is_subtitle_line line) = true
  | None => is_audio_line line = false ∧ is_subtitle_line line = false
  end.
Proof.
  intros Hl. pose proof (line_stream_resolvable line Hl) as Hnone.
  unfold line_stream, line_shape, is_audio_line, is_subtitle_line in *.
  destruct (Re.rmatch audio_re (Py.strip line)) as [m|] eqn:Ea.
  - rewrite (audio_subtitle_exclusive _ _ Ea).
    rewrite bool_decide_eq_true_2 by eauto.
    rewrite bool_decide_eq_false_2 by (by intros [? ?]).
    destruct (lang_iso_code !! Re.group m 3); [done|].
    by specialize (Hnone eq_refl).
  - rewrite bool_decide_eq_false_2 by (by intros [? ?]).
    destruct (Re.rmatch subtitle_re (Py.strip line)) as [m|] eqn:Eb.
    + rewrite bool_decide_eq_true_2 by eauto.
      destruct (lang_iso_code !! Re.group m 1); [done|].
      by specialize (Hnone eq_refl).
    + by rewrite bool_decide_eq_false_2 by (by intros [? ?]).
Qed.

Lemma count_shapes log :
  forallb resolvable log = true →
  length (omap line_stream log)
  = (count_lines is_audio_line log + count_lines is_subtitle_line log)%nat.
Proof.
  unfold count_lines.
  induction log as [|line log IH]; [done|].
  cbn [forallb omap list_omap List.filter].
  intros [Hl Hlog]%andb_prop. specialize (IH Hlog).
  pose proof (shape_of_line line Hl) as Hs.
  destruct (line_stream line), (is_audio_line line), (is_subtitle_line line);
    cbn [length] in *; try lia; try done; by destruct Hs.
Qed.

(** C9.  When every language code in the log resolves, [parse_metadata]
    returns one descriptor per line of audio or subtitle shape, so as many
    as there are audio lines plus subtitle lines, in the order of the
    lines, and prints one notice for each; other lines leave no trace. *)
Theorem parse_metadata_one_descriptor_per_matching_line (log : list string) (w : world) :
  forallb resolvable log = true →
  ∃ streams,
    parse_metadata log w = (Ok streams, add_stdout (map notice streams) w)
    ∧ streams = omap line_stream log
    ∧ length streams
      = (count_lines is_audio_line log + count_lines is_subtitle_line log)%nat.
Proof.
  intros Hres. exists (omap line_stream log). split_and!.
  - unfold parse_metadata. by rewrite parse_metadata_from_ok.
  - done.
  - by apply count_shapes.
Qed.

(** ** [lang_iso_code] *)

Lemma lang_iso_code_keys c : lang_iso_code !! c = None ↔ c ∉ short_codes.
Proof. unfold lang_iso_code. rewrite <- not_elem_of_list_to_map. reflexivity. Qed.

(** C8.  The table answers each of its fourteen short codes with the
    3-letter code written next to it and the sentinel [unknown] with
    [eng]; any other code is a [KeyError], and a log with a line whose
    code is not in the table makes the whole extraction raise that
    [KeyError] rather than return descriptors. *)
Theorem lang_iso_code_total_on_its_keys :
  (getitem lang_iso_code <$> short_codes
   = Ok <$> ["ara"; "cym"; "ger"; "eng"; "spa"; "fas"; "fra"; "gle"; "heb";
             "jpn"; "kor"; "por"; "rus"; "chi"; "eng"])
  ∧ (∀ c, c ∉ short_codes → getitem lang_iso_code c = Raise (KeyError c))
  ∧ (∀ log w, forallb resolvable log = false →
       ∃ c w', parse_metadata log w = (Raise (KeyError c), w')
               ∧ c ∉ short_codes).
Proof.
  split_and!.
  - by vm_compute.
  - intros c Hc. unfold getitem.
    by rewrite (proj2 (lang_iso_code_keys c) Hc).
  - intros log w Hres.
    destruct (parse_metadata_from_raise log [] w Hres) as (c & w' & Hrun & Hc).
    exists c, w'. split; [done|]. by apply lang_iso_code_keys.
Qed.

(** ** [re_mux]: one pass through the loop body *)

Lemma status_notice_run st w :
  (if st <? 0 then
     msg ("ffmpeg terminated by signal " +:+ Py.str_of_int (- st))
   else if st >? 0 then
     msg ("ffmpeg returned error status " +:+ Py.str_of_int st)
   else mret ()) w
  = (Ok (), add_stdout (status_notice st) w).
Proof.
  unfold status_notice. destruct (st <? 0); [reflexivity|].
  destruct (st >? 0); [reflexivity|]. by rewrite add_stdout_nil.
Qed.

Lemma re_mux_after_ok tmpfile cmd o w data :
  status o = 0 → fs w !! tmpfile = Some data →
  re_mux_after tmpfile cmd o w
  = (Ok Break,
     World (delete tmpfile (fs w))
       (sys_stdout w ++ [coloured "ffmpeg returned ok"]
          ++ [coloured ("Deleting input file " +:+ tmpfile)])
       (sys_stderr w) (spawned w)).
Proof.
  intros Hst Hfile. unfold re_mux_after. rewrite Hst. cbn [Z.eqb].
  unfold mbind, py_bind, msg, msg_to, write, unlink, mret, py_ret. cbn [fs].
  rewrite Hfile. cbn [sys_stdout sys_stderr spawned fs].
  by rewrite <- app_assoc.
Qed.

Lemma re_mux_after_dts tmpfile cmd o w :
  status o ≠ 0 → is_Some (Re.search dts_re (child_stderr o)) →
  re_mux_after tmpfile cmd o w
  = (Ok (Continue ["-map"; "0:v"; "-map"; "0:a"]),
     add_stdout (status_notice (status o)
                 ++ [coloured "Subtitles are impossible to represent in mpeg.";
                     coloured "Trying again with no subtitles."]) w).
Proof.
  intros Hst [m Hm]. unfold re_mux_after.
  rewrite (proj2 (Z.eqb_neq _ _) Hst), Hm.
  unfold mbind at 1, py_bind at 1. rewrite status_notice_run.
  unfold add_stdout, mbind, py_bind, msg, msg_to, write, mret, py_ret.
  cbn [sys_stdout sys_stderr spawned fs]. by rewrite <- !app_assoc.
Qed.

Lemma re_mux_after_codec tmpfile cmd o w m :
  status o ≠ 0 → Re.search dts_re (child_stderr o) = None →
  Re.search codec_re (child_stderr o) = Some m →
  re_mux_after tmpfile cmd o w
  = (Ok (Continue (exclude_bad_stream (Py.split_nl (child_stderr o)) (Re.group m 1) [])),
     add_stdout (status_notice (status o)
                 ++ [coloured ("Cannot interpret stream " +:+ Re.group m 1 +:+ ".");
                     coloured "Trying again with that stream excluded."]) w).
Proof.
  intros Hst Hd Hm. unfold re_mux_after.
  rewrite (proj2 (Z.eqb_neq _ _) Hst), Hd, Hm.
  unfold mbind at 1, py_bind at 1. rewrite status_notice_run.
  unfold add_stdout, mbind, py_bind, msg, msg_to, write, mret, py_ret.
  cbn [sys_stdout sys_stderr spawned fs]. by rewrite <- !app_assoc.
Qed.

Lemma re_mux_after_unclassified tmpfile cmd o w :
  status o ≠ 0 → Re.search dts_re (child_stderr o) = None →
  Re.search codec_re (child_stderr o) = None →
  re_mux_after tmpfile cmd o w
  = (Raise (SystemExit 1),
     World (with_diagnostics cmd o (fs w))
       (sys_stdout w ++ status_notice (status o)
          ++ [coloured "Unrecoverable error in ffmpeg.";
              coloured ("Leaving input file " +:+ tmpfile +:+ " behind.");
              coloured "Dumping stdout, stderr, and sh command to ffmpeg.*"])
       (sys_stderr w ++ [coloured "Good luck!"])
       (spawned w)).
Proof.
  intros Hst Hd Hm. unfold re_mux_after.
  rewrite (proj2 (Z.eqb_neq _ _) Hst), Hd, Hm.
  unfold mbind at 1, py_bind at 1. rewrite status_notice_run.
  unfold add_stdout, die, raise, write_file, mbind, py_bind, msg, msg_to, write,
    mret, py_ret, with_diagnostics.
  cbn [sys_stdout sys_stderr spawned fs]. by rewrite <- !app_assoc.
Qed.

Lemma re_mux_after_missing tmpfile cmd o w :
  status o = 0 → fs w !! tmpfile = None →
  re_mux_after tmpfile cmd o w
  = (Raise (OSError tmpfile),
     add_stdout [coloured "ffmpeg returned ok";
                 coloured ("Deleting input file " +:+ tmpfile)] w).
Proof.
  intros Hst Hfile. unfold re_mux_after. rewrite Hst. cbn [Z.eqb].
  unfold mbind, py_bind, msg, msg_to, write, unlink, mret, py_ret. cbn [fs].
  rewrite Hfile. unfold add_stdout. cbn [sys_stdout sys_stderr spawned fs].
  by rewrite <- app_assoc.
Qed.

Lemma recoverable_cases o :
  recoverable o = true →
  status o ≠ 0
  ∧ (is_Some (Re.search dts_re (child_stderr o))
     ∨ (Re.search dts_re (child_stderr o) = None
        ∧ is_Some (Re.search codec_re (child_stderr o)))).
Proof.
  unfold recoverable. intros [Hst Hsig]%andb_prop. split.
  - by apply Z.eqb_neq, negb_true_iff.
  - destruct (Re.search dts_re (child_stderr o)) as [m|]; [by left; eauto|].
    right. split; [done|]. apply orb_prop in Hsig as [H|H].
    + by apply bool_decide_eq_true in H as [? ?].
    + by apply bool_decide_eq_true in H.
Qed.

Lemma re_mux_after_recoverable tmpfile cmd o w :
  recoverable o = true →
  ∃ map_args notes,
    re_mux_after tmpfile cmd o w = (Ok (Continue map_args), add_stdout notes w).
Proof.
  intros (Hst & [Hd | [Hd [m Hm]]])%recoverable_cases.
  - eexists _, _. by apply re_mux_after_dts.
  - eexists _, _. by apply re_mux_after_codec.
Qed.

Lemma re_mux_after_spawned tmpfile cmd o w :
  spawned (snd (re_mux_after tmpfile cmd o w)) = spawned w.
Proof.
  destruct (Z.eq_dec (status o) 0) as [Hst|Hst].
  - destruct (fs w !! tmpfile) as [data|] eqn:Hfile.
    + by rewrite (re_mux_after_ok _ _ _ _ data).
    + by rewrite re_mux_after_missing.
  - destruct (Re.search dts_re (child_stderr o)) as [m|] eqn:Hd.
    + by rewrite re_mux_after_dts by eauto.
    + destruct (Re.search codec_re (child_stderr o)) as [m|] eqn:Hm.
      * by rewrite (re_mux_after_codec _ _ _ _ m).
      * by rewrite re_mux_after_unclassified.
Qed.

(** ** [re_mux]: the loop *)

Section Loop.

Variables (tmpfile : string) (metadata_bag : bag) (streams : list Stream)
  (outfile : string).

Local Abbreviation loop script :=
  (re_mux_loop script tmpfile metadata_bag streams outfile).
Local Abbreviation cmd_of map_args :=
  (re_mux_cmd tmpfile map_args metadata_bag streams outfile).

Lemma re_mux_loop_step o script map_args w :
  loop (o :: script) map_args w
  = match re_mux_after tmpfile (cmd_of map_args) o
            (World (fs w) (sys_stdout w) (sys_stderr w)
               (spawned w ++ [cmd_of map_args])) with
    | (Ok Break, w') => (Ok Left_loop, w')
    | (Ok (Continue map_args'), w') => loop script map_args' w'
    | (Raise e, w') => (Raise e, w')
    end.
Proof.
  cbn [re_mux_loop]. unfold mbind, py_bind, spawn.
  destruct (re_mux_after _ _ _ _) as [[[|m]|e] w']; reflexivity.
Qed.

(** Every command the loop spawns is an attempt's command line. *)
Lemma re_mux_loop_spawns script : ∀ map_args w,
  ∃ cmds, spawned (snd (loop script map_args w)) = spawned w ++ cmds
          ∧ Forall (is_attempt tmpfile metadata_bag streams outfile) cmds
          ∧ (length cmds ≤ length script)%nat.
Proof.
  induction script as [|o script IH]; intros map_args w.
  - exists []. simpl. by rewrite app_nil_r.
  - rewrite re_mux_loop_step.
    set (w1 := World _ _ _ _).
    pose proof (re_mux_after_spawned tmpfile (cmd_of map_args) o w1) as Hsp.
    destruct (re_mux_after _ _ _ _) as [[[|m]|e] w']; simpl in Hsp.
    + exists [cmd_of map_args]. simpl. rewrite Hsp.
      split_and!; [done| |lia]. constructor; [by exists map_args|done].
    + destruct (IH m w') as (cmds & Hc & Hall & Hlen).
      exists (cmd_of map_args :: cmds). rewrite Hc, Hsp. subst w1. simpl.
      rewrite <- app_assoc. split_and!; [done| |lia].
      constructor; [by exists map_args|done].
    + exists [cmd_of map_args]. simpl. rewrite Hsp.
      split_and!; [done| |lia]. constructor; [by exists map_args|done].
Qed.

(** Recoverable failures are each answered by another attempt, however
    many there are. *)
Lemma re_mux_loop_retries retries : ∀ rest map_args w,
  forallb recoverable retries = true →
  ∃ map_args' w' cmds,
    loop (retries ++ rest) map_args w = loop rest map_args' w'
    ∧ fs w' = fs w ∧ sys_stderr w' = sys_stderr w
    ∧ spawned w' = spawned w ++ cmds
    ∧ length cmds = length retries
    ∧ Forall (is_attempt tmpfile metadata_bag streams outfile) cmds.
Proof.
  induction retries as [|o retries IH]; intros rest map_args w Hrec.
  - exists map_args, w, []. simpl. by rewrite app_nil_r.
  - simpl in Hrec. apply andb_prop in Hrec as [Ho Hrec].
    rewrite <- app_comm_cons, re_mux_loop_step.
    set (w1 := World _ _ _ _).
    destruct (re_mux_after_recoverable tmpfile (cmd_of map_args) o w1 Ho)
      as (m & notes & ->).
    destruct (IH rest m (add_stdout notes w1) Hrec)
      as (m' & w' & cmds & Hrun & Hfs & Herr & Hsp & Hlen & Hall).
    exists m', w', (cmd_of map_args :: cmds). rewrite Hrun, Hfs, Herr, Hsp.
    subst w1. simpl. rewrite <- app_assoc, Hlen.
    split_and!; try done. constructor; [by exists map_args|done].
Qed.

End Loop.

Section Loop_first_spawn.

Variables (tmpfile : string) (metadata_bag : bag) (streams : list Stream)
  (outfile : string).

Lemma re_mux_loop_first_spawn o script map_args w :
  ∃ more,
    spawned (snd (re_mux_loop (o :: script) tmpfile metadata_bag streams outfile
                    map_args w))
    = spawned w ++ re_mux_cmd tmpfile map_args metadata_bag streams outfile :: more.
Proof.
  rewrite re_mux_loop_step. set (w1 := World _ _ _ _).
  pose proof (re_mux_after_spawned tmpfile
                (re_mux_cmd tmpfile map_args metadata_bag streams outfile) o w1) as Hsp.
  destruct (re_mux_after _ _ _ _) as [[[|m]|e] w2]; simpl in Hsp.
  - exists []. simpl. by rewrite Hsp.
  - destruct (re_mux_loop_spawns tmpfile metadata_bag streams outfile script m w2)
      as (more & Hmore & _ & _).
    exists more. rewrite Hmore, Hsp. subst w1. simpl. by rewrite <- app_assoc.
  - exists []. simpl. by rewrite Hsp.
Qed.

End Loop_first_spawn.

(** C7.  A failed attempt whose standard error carries neither signature
    ends the run: the child's standard output, its standard error and the
    command line are written to [ffmpeg.stdout], [ffmpeg.stderr] and
    [ffmpeg.sh], no other path changes, the dump file is still there, no
    further child is spawned whatever the script still holds, and the
    run exits with status 1 after [Good luck!] on standard error. *)
Theorem unclassified_failure_is_terminal
    (tmpfile : string) (metadata_bag : bag) (streams : list Stream)
    (outfile : string) (map_args : list string) (o : outcome)
    (script : list outcome) (w : world) :
  status o ≠ 0 →
  Re.search dts_re (child_stderr o) = None →
  Re.search codec_re (child_stderr o) = None →
  let cmd := re_mux_cmd tmpfile map_args metadata_bag streams outfile in
  ∃ w',
    re_mux_loop (o :: script) tmpfile metadata_bag streams outfile map_args w
    = (Raise (SystemExit 1), w')
    ∧ fs w' = <["ffmpeg.sh" := Py.join " " cmd]>
                (<["ffmpeg.stderr" := child_stderr o]>
                   (<["ffmpeg.stdout" := child_stdout o]> (fs w)))
    ∧ (∀ path, path ∉ ["ffmpeg.stdout"; "ffmpeg.stderr"; "ffmpeg.sh"] →
               fs w' !! path = fs w !! path)
    ∧ (is_Some (fs w !! tmpfile) → is_Some (fs w' !! tmpfile))
    ∧ spawned w' = spawned w ++ [cmd]
    ∧ sys_stderr w' = sys_stderr w ++ [coloured "Good luck!"].
Proof.
  intros Hst Hd Hc cmd. rewrite re_mux_loop_step.
  rewrite re_mux_after_unclassified by done.
  eexists. split; [reflexivity|]. cbn [fs spawned sys_stderr].
  unfold with_diagnostics. fold cmd. split_and!; try done.
  - intros path Hp. rewrite !lookup_insert_ne; [done|..];
      intros <-; apply Hp; set_solver.
  - intros Hfile. rewrite !lookup_insert. repeat case_decide; eauto.
Qed.

(** C3.  A failed attempt whose standard error carries the timestamp
    signature, whether or not it also carries the codec signature, is
    answered by another attempt whose map is video and audio only, so
    that it selects no subtitle stream; nothing is written or removed. *)
Theorem dts_failure_retries_without_subtitles
    (tmpfile : string) (metadata_bag : bag) (streams : list Stream)
    (outfile : string) (map_args : list string) (o o' : outcome)
    (script : list outcome) (w : world) :
  status o ≠ 0 →
  is_Some (Re.search dts_re (child_stderr o)) →
  let cmd m := re_mux_cmd tmpfile m metadata_bag streams outfile in
  let narrowed := ["-map"; "0:v"; "-map"; "0:a"] in
  (∃ w',
     re_mux_loop (o :: o' :: script) tmpfile metadata_bag streams outfile map_args w
     = re_mux_loop (o' :: script) tmpfile metadata_bag streams outfile narrowed w'
     ∧ fs w' = fs w
     ∧ spawned w' = spawned w ++ [cmd map_args])
  ∧ (∃ more,
       spawned (snd (re_mux_loop (o :: o' :: script) tmpfile metadata_bag
                       streams outfile map_args w))
       = spawned w ++ [cmd map_args; cmd narrowed] ++ more)
  ∧ (∀ index, map_selects narrowed index Subtitle = false).
Proof.
  intros Hst Hd cmd narrowed.
  assert (∃ w', re_mux_loop (o :: o' :: script) tmpfile metadata_bag streams
                  outfile map_args w
                = re_mux_loop (o' :: script) tmpfile metadata_bag streams
                    outfile narrowed w'
                ∧ fs w' = fs w ∧ spawned w' = spawned w ++ [cmd map_args])
    as (w' & Hrun & Hfs & Hsp).
  { rewrite re_mux_loop_step. rewrite re_mux_after_dts by done.
    eexists. split; [reflexivity|]. done. }
  split_and!.
  - by exists w'.
  - rewrite Hrun.
    destruct (re_mux_loop_first_spawn tmpfile metadata_bag streams outfile
                o' script narrowed w') as [more Hmore].
    exists more. rewrite Hmore, Hsp. by rewrite <- app_assoc.
  - intros index. reflexivity.
Qed.

(** C1 as the code has it.  The loop keeps no count of its attempts: a
    run of recoverable failures of any length is answered attempt by
    attempt, with nothing written and nothing removed, and the loop goes
    on with what the script holds next; when that is a success, the run
    ends well after one attempt more than there were failures. *)
Theorem retries_are_not_bounded
    (tmpfile : string) (metadata_bag : bag) (streams : list Stream)
    (outfile : string) (map_args : list string) (retries : list outcome)
    (w : world) :
  forallb recoverable retries = true →
  (∀ rest, ∃ map_args' w' cmds,
     re_mux_loop (retries ++ rest) tmpfile metadata_bag streams outfile map_args w
     = re_mux_loop rest tmpfile metadata_bag streams outfile map_args' w'
     ∧ fs w' = fs w ∧ sys_stderr w' = sys_stderr w
     ∧ spawned w' = spawned w ++ cmds ∧ length cmds = length retries)
  ∧ (∀ o data, status o = 0 → fs w !! tmpfile = Some data →
       ∃ w' cmds,
         re_mux_loop (retries ++ [o]) tmpfile metadata_bag streams outfile map_args w
         = (Ok Left_loop, w')
         ∧ fs w' = delete tmpfile (fs w)
         ∧ spawned w' = spawned w ++ cmds
         ∧ length cmds = S (length retries)).
Proof.
  intros Hrec. split.
  - intros rest.
    destruct (re_mux_loop_retries tmpfile metadata_bag streams outfile
                retries rest map_args w Hrec)
      as (m' & w' & cmds & Hrun & Hfs & Herr & Hsp & Hlen & _).
    by exists m', w', cmds.
  - intros o data Hst Hfile.
    destruct (re_mux_loop_retries tmpfile metadata_bag streams outfile
                retries [o] map_args w Hrec)
      as (m' & w' & cmds & Hrun & Hfs & Herr & Hsp & Hlen & _).
    rewrite Hrun, re_mux_loop_step.
    rewrite (re_mux_after_ok _ _ _ _ data) by (by cbn [fs]; rewrite ?Hfs).
    eexists _, (cmds ++ [_]). split; [reflexivity|]. cbn [fs spawned].
    rewrite Hfs, Hsp, <- app_assoc, length_app, Hlen. simpl.
    split_and!; [done..|lia].
Qed.

(** The claimed bound of C1 fails: six failures with the timestamp
    signature and then a success make seven attempts, and the run ends
    well, with no exit and no diagnostic file. *)
Lemma retry_bound_counterexample :
  let run := re_mux (replicate 6 dts_failure ++ [success]) []
               "dvdrip.abcdef.vob" [("title", "T")]
               (dump_only "dvdrip.abcdef.vob") in
  fst run = Ok Left_loop
  ∧ length (spawned (snd run)) = 7%nat
  ∧ ¬ (length (spawned (snd run)) ≤ 5)%nat
  ∧ fs (snd run) !! "ffmpeg.stderr" = None
  ∧ sys_stderr (snd run) = [].
Proof. vm_compute. split_and!; try done. lia. Qed.

(** ** [stream_language_tags] *)

Lemma count_kind_snoc t pre x :
  count_kind t (pre ++ [x])
  = (count_kind t pre + if bool_decide (type x = t) then 1 else 0)%nat.
Proof.
  unfold count_kind. rewrite List.filter_app, length_app. simpl.
  by destruct (bool_decide (type x = t)).
Qed.

Lemma stream_language_tags_from_spec rest : ∀ pre args,
  stream_language_tags_from rest args
    (Z.of_nat (count_kind audio pre)) (Z.of_nat (count_kind subtitle pre))
  = args ++ concat (imap (λ i s, language_tag s
                            (kind_ordinal (pre ++ rest) (length pre + i) s)) rest).
Proof.
  induction rest as [|x rest IH]; intros pre args.
  - simpl. by rewrite app_nil_r.
  - cbn [stream_language_tags_from imap concat].
    assert (kind_ordinal (pre ++ x :: rest) (length pre + 0) x
            = count_kind (type x) pre) as ->.
    { unfold kind_ordinal. by rewrite Nat.add_0_r, take_app_length. }
    assert (∀ a b c : list string, a ++ b ++ c = (a ++ b) ++ c) as Hassoc
        by (intros; by rewrite app_assoc).
    rewrite Hassoc.
    assert (imap ((λ i s, language_tag s
                    (kind_ordinal (pre ++ x :: rest) (length pre + i) s)) ∘ S) rest
            = imap (λ i s, language_tag s
                    (kind_ordinal ((pre ++ [x]) ++ rest) (length (pre ++ [x]) + i) s))
                rest) as ->.
    { apply imap_ext. intros i s _. simpl.
      rewrite <- app_assoc, length_app. simpl. do 2 f_equal. lia. }
    rewrite <- IH. rewrite !count_kind_snoc.
    destruct x as [[] f l]; cbn [type language];
      rewrite ?bool_decide_eq_true_2, ?bool_decide_eq_false_2 by done;
      rewrite ?Nat.add_0_r, ?Nat2Z.inj_add; reflexivity.
Qed.

(** What the loop hands to [stream_language_tags]: the descriptors alone.
    There is one directive per descriptor, in order, addressed by the
    descriptor's position among the descriptors of its kind and carrying
    its language code, and every attempt of a run, whatever its map,
    carries the tags of all the descriptors. *)
Theorem language_tags_follow_the_descriptors
    (tmpfile : string) (metadata_bag : bag) (streams : list Stream)
    (outfile : string) (map_args : list string) (script : list outcome)
    (w : world) :
  stream_language_tags streams
  = concat (imap (λ i s, language_tag s (kind_ordinal streams i s)) streams)
  ∧ ∃ cmds,
      spawned (snd (re_mux_loop script tmpfile metadata_bag streams outfile
                      map_args w))
      = spawned w ++ cmds
      ∧ Forall (λ cmd, ∃ m,
                  cmd = ["ffmpeg"; "-probesize"; "200M"; "-analyzeduration";
                         "120M"; "-i"; tmpfile]
                        ++ m ++ ["-c"; "copy"; "-y"]
                        ++ metadata_args metadata_bag
                        ++ stream_language_tags streams ++ [outfile]) cmds.
Proof.
  split.
  - exact (stream_language_tags_from_spec streams [] []).
  - destruct (re_mux_loop_spawns tmpfile metadata_bag streams outfile script
                map_args w) as (cmds & Hsp & Hall & _).
    exists cmds. split; [done|].
    eapply Forall_impl; [exact Hall|]. intros cmd [m ->]. by exists m.
Qed.

(** After a failure with the timestamp signature the second attempt maps
    video and audio only, which selects no subtitle stream, and still
    carries the directive for the subtitle descriptor. *)
Lemma tags_of_dropped_streams_counterexample :
  let run := re_mux [dts_failure; success]
               [mkStream audio (Some "ac3:5.1") "eng"; mkStream subtitle None "fra"]
               "dvdrip.abcdef.vob" [("title", "T")]
               (dump_only "dvdrip.abcdef.vob") in
  fst run = Ok Left_loop
  ∧ spawned (snd run)
    = [["ffmpeg"; "-probesize"; "200M"; "-analyzeduration"; "120M"; "-i";
        "dvdrip.abcdef.vob"; "-map"; "0"; "-c"; "copy"; "-y";
        "-metadata"; "title=T"; "-metadata:s:a:0"; "language=eng";
        "-metadata:s:s:0"; "language=fra"; "T.mp4"];
       ["ffmpeg"; "-probesize"; "200M"; "-analyzeduration"; "120M"; "-i";
        "dvdrip.abcdef.vob"; "-map"; "0:v"; "-map"; "0:a"; "-c"; "copy"; "-y";
        "-metadata"; "title=T"; "-metadata:s:a:0"; "language=eng";
        "-metadata:s:s:0"; "language=fra"; "T.mp4"]]
  ∧ (∀ index, map_selects ["-map"; "0:v"; "-map"; "0:a"] index Subtitle = false).
Proof. split_and!; [by vm_compute..|]. intros index. reflexivity. Qed.

(** C4 at a dump whose second audio track cannot be read.  The
    descriptors are English, French and Spanish audio; the first attempt
    fails with the codec signature naming stream 2, the French track, and
    the second attempt, which succeeds, maps streams 0, 1 and 3.  Its
    audio outputs are therefore the English and the Spanish track, yet it
    carries the directives of the first attempt unchanged: audio 0 is
    tagged [eng], audio 1, the Spanish track, is tagged [fra], and a
    third directive addresses an audio output that is not there.  The
    tags are not those of the streams the map selects. *)
Theorem language_tags_mislabel_after_exclusion :
  let run := re_mux [french_track_failure; success] three_audio
               "dvdrip.abcdef.vob" [("title", "T")]
               (dump_only "dvdrip.abcdef.vob") in
  fst run = Ok Left_loop
  ∧ kept_indices french_track_stderr "2" = ["0"; "1"; "3"]
  ∧ spawned (snd run)
    = [["ffmpeg"; "-probesize"; "200M"; "-analyzeduration"; "120M"; "-i";
        "dvdrip.abcdef.vob"; "-map"; "0"; "-c"; "copy"; "-y";
        "-metadata"; "title=T";
        "-metadata:s:a:0"; "language=eng";
        "-metadata:s:a:1"; "language=fra";
        "-metadata:s:a:2"; "language=spa"; "T.mp4"];
       ["ffmpeg"; "-probesize"; "200M"; "-analyzeduration"; "120M"; "-i";
        "dvdrip.abcdef.vob"; "-map"; "0:0"; "-map"; "0:1"; "-map"; "0:3";
        "-c"; "copy"; "-y"; "-metadata"; "title=T";
        "-metadata:s:a:0"; "language=eng";
        "-metadata:s:a:1"; "language=fra";
        "-metadata:s:a:2"; "language=spa"; "T.mp4"]]
  ∧ stream_language_tags
      [mkStream audio (Some "ac3:5.1") "eng"; mkStream audio (Some "ac3:stereo") "spa"]
    = ["-metadata:s:a:0"; "language=eng"; "-metadata:s:a:1"; "language=spa"].
Proof. split_and!; by vm_compute. Qed.

(** ** Rebuilding the map after a codec failure *)

Lemma exclude_bad_stream_spec lines bad : ∀ acc,
  exclude_bad_stream lines bad acc
  = acc ++ map_of_indices
             (List.filter (λ i, negb (String.eqb i bad))
                (omap listed_index (before_output lines))).
Proof.
  induction lines as [|line lines IH]; intros acc.
  - simpl. by rewrite app_nil_r.
  - cbn [exclude_bad_stream before_output].
    destruct (Py.startswith line "Output #0").
    + simpl. by rewrite app_nil_r.
    + cbn [omap list_omap]. unfold listed_index at 1.
      destruct (Re.search stream_re line) as [g|]; cbn [fmap option_fmap option_map].
      * cbn [List.filter].
        destruct (negb (String.eqb (Re.group g 1) bad)).
        -- rewrite IH. unfold map_of_indices. cbn [flat_map].
           by rewrite <- app_assoc.
        -- apply IH.
      * apply IH.
Qed.

Lemma elem_of_before_output lines line :
  line ∈ before_output lines ↔
  ∃ k, lines !! k = Some line
       ∧ ∀ j l, (j ≤ k)%nat → lines !! j = Some l →
                Py.startswith l "Output #0" = false.
Proof.
  induction lines as [|x lines IH]; simpl.
  - split; [by intros ?%elem_of_nil|by intros (k & ? & _)].
  - destruct (Py.startswith x "Output #0") eqn:Ex.
    + split; [by intros ?%elem_of_nil|].
      intros (k & _ & Hk). specialize (Hk O x). rewrite Ex in Hk.
      by discriminate Hk; [lia|].
    + rewrite elem_of_cons, IH. split.
      * intros [->|(k & Hl & Hk)].
        -- exists O. split; [done|]. intros j l Hj. assert (j = O) as -> by lia.
           by intros [= <-].
        -- exists (S k). split; [done|]. intros [|j] l Hj; [by intros [= <-]|].
           simpl. apply Hk. lia.
      * intros ([|k] & Hl & Hk); [left; by injection Hl|right].
        exists k. split; [done|]. intros j l Hj Hjl. apply (Hk (S j)); [lia|done].
Qed.

Lemma elem_of_kept_indices err bad i :
  i ∈ kept_indices err bad ↔ i ≠ bad ∧ listed_before_output err i.
Proof.
  unfold kept_indices, listed_before_output.
  rewrite list_elem_of_In, filter_In, <- list_elem_of_In, list_elem_of_omap.
  rewrite negb_true_iff, String.eqb_neq. split.
  - intros [(line & Hin & Hidx) Hne]. split; [done|].
    apply elem_of_before_output in Hin as (k & Hk & Hbefore). by exists k, line.
  - intros [Hne (k & line & Hk & Hbefore & Hidx)]. split; [|done].
    exists line. split; [|done]. apply elem_of_before_output. by exists k.
Qed.

(** C2.  A failed attempt whose standard error carries the codec
    signature naming stream [n], and not the timestamp signature, is
    answered by another attempt whose map lists, in order, the indices
    found on the [Stream #0:] lines that come before the first line
    starting the output section, [n] left out and every other one kept;
    nothing is written or removed. *)
Theorem codec_failure_excludes_the_named_stream
    (tmpfile : string) (metadata_bag : bag) (streams : list Stream)
    (outfile : string) (map_args : list string) (o o' : outcome)
    (script : list outcome) (w : world) (groups : list string) :
  status o ≠ 0 →
  Re.search dts_re (child_stderr o) = None →
  Re.search codec_re (child_stderr o) = Some groups →
  let n := Re.group groups 1 in
  let cmd m := re_mux_cmd tmpfile m metadata_bag streams outfile in
  let narrowed := map_of_indices (kept_indices (child_stderr o) n) in
  (∀ i, i ∈ kept_indices (child_stderr o) n
        ↔ i ≠ n ∧ listed_before_output (child_stderr o) i)
  ∧ (∃ w',
       re_mux_loop (o :: o' :: script) tmpfile metadata_bag streams outfile map_args w
       = re_mux_loop (o' :: script) tmpfile metadata_bag streams outfile narrowed w'
       ∧ fs w' = fs w
       ∧ spawned w' = spawned w ++ [cmd map_args])
  ∧ (∃ more,
       spawned (snd (re_mux_loop (o :: o' :: script) tmpfile metadata_bag
                       streams outfile map_args w))
       = spawned w ++ [cmd map_args; cmd narrowed] ++ more).
Proof.
  intros Hst Hd Hc n cmd narrowed.
  assert (∃ w', re_mux_loop (o :: o' :: script) tmpfile metadata_bag streams
                  outfile map_args w
                = re_mux_loop (o' :: script) tmpfile metadata_bag streams
                    outfile narrowed w'
                ∧ fs w' = fs w ∧ spawned w' = spawned w ++ [cmd map_args])
    as (w' & Hrun & Hfs & Hsp).
  { rewrite re_mux_loop_step. rewrite (re_mux_after_codec _ _ _ _ groups) by done.
    rewrite exclude_bad_stream_spec. eexists. split; [reflexivity|]. done. }
  split_and!.
  - intros i. apply elem_of_kept_indices.
  - by exists w'.
  - rewrite Hrun.
    destruct (re_mux_loop_first_spawn tmpfile metadata_bag streams outfile
                o' script narrowed w') as [more Hmore].
    exists more. rewrite Hmore, Hsp. by rewrite <- app_assoc.
Qed.

(** ** [list.sort] *)

Lemma insert_sorted_perm {A} (le : A → A → bool) x l :
  insert_sorted le x l ≡ₚ x :: l.
Proof.
  induction l as [|y l IH]; simpl; [done|].
  destruct (le x y); [done|]. rewrite IH. apply Permutation_swap.
Qed.

Lemma stable_sort_perm {A} (le : A → A → bool) l : stable_sort le l ≡ₚ l.
Proof.
  induction l as [|x l IH]; [done|].
  change (stable_sort le (x :: l)) with (insert_sorted le x (stable_sort le l)).
  by rewrite insert_sorted_perm, IH.
Qed.

Lemma stable_sort_length {A} (le : A → A → bool) l :
  length (stable_sort le l) = length l.
Proof. by rewrite stable_sort_perm. Qed.


Section StableSort.

Context {A : Type} (le : A → A → bool).



Hypothesis le_total : ∀ a b, le a b = true ∨ le b a = true.
Hypothesis le_trans : ∀ a b c, le a b = true → le b c = true → le a c = true.



Lemma stable_sort_sorted l :
  StronglySorted (λ a b, le a b = true) (stable_sort le l).
Proof.
  induction l as [|x l IH]; [constructor|].
  change (stable_sort le (x :: l)) with (insert_sorted le x (stable_sort le l)).
  revert IH. generalize (stable_sort le l).
  clear l. intros l. induction l as [|y l IH]; simpl; intros Hs.
  - repeat constructor.
  - apply StronglySorted_cons in Hs as [Hy Hs].
    destruct (le x y) eqn:Exy.
    + apply StronglySorted_cons. split; [|by apply StronglySorted_cons].
      constructor; [done|]. rewrite Forall_forall in Hy |- *.
      intros z Hz. eapply le_trans; [exact Exy|]. by apply Hy.
    + apply StronglySorted_cons. split; [|by apply IH].
      rewrite insert_sorted_perm. constructor; [|done].
      by destruct (le_total x y) as [H|H]; [rewrite H in Exy|].
Qed.






End StableSort.

(** ** The two orders [read_toc] sorts by *)







Lemma by_title_total a b : by_title a b = true ∨ by_title b a = true.
Proof. unfold by_title. rewrite !Z.leb_le. lia. Qed.

Lemma by_title_trans a b c :
  by_title a b = true → by_title b c = true → by_title a c = true.
Proof. unfold by_title. rewrite !Z.leb_le. lia. Qed.

(** ** [read_toc] *)

Lemma read_toc_scan_spec toc : ∀ title_len w,
  read_toc_scan toc title_len w
  = (Ok (title_len ++ toc_entries toc),
     add_stdout (map (λ line, Py.strip line +:+ nl) toc) w).
Proof.
  induction toc as [|line toc IH]; intros title_len w.
  - simpl. by rewrite app_nil_r, add_stdout_nil.
  - cbn [read_toc_scan]. unfold mbind at 1, py_bind at 1, print at 1, write at 1.
    rewrite IH. unfold toc_entries. cbn [omap list_omap map].
    unfold add_stdout. cbn [fs sys_stdout sys_stderr spawned].
    destruct (toc_line_entry (Py.strip line)); by rewrite <- !app_assoc.
Qed.

Lemma read_toc_spec toc n w :
  read_toc toc n w
  = (Ok (stable_sort by_title
           (take n (stable_sort by_length_desc (toc_entries toc)))).*2,
     World (fs w) (sys_stdout w ++ map (λ line, Py.strip line +:+ nl) toc)
       (sys_stderr w) (spawned w ++ [["lsdvd"]])).
Proof.
  unfold read_toc. unfold mbind at 1, py_bind at 1, spawn at 1.
  unfold mbind at 1, py_bind at 1. by rewrite read_toc_scan_spec.
Qed.

Lemma sorted_titles (l : list toc_entry) :
  StronglySorted Z.le (stable_sort by_title l).*2.
Proof.
  pose proof (stable_sort_sorted by_title by_title_total by_title_trans l) as H.
  induction H as [|x s Hs IH Hx]; [constructor|].
  rewrite fmap_cons. constructor; [done|].
  rewrite Forall_fmap. eapply Forall_impl; [exact Hx|].
  intros y Hy. simpl. by apply Z.leb_le.
Qed.





(** C6 as the code has it.  When fewer than [n] lines of the table of
    contents have the title shape, [read_toc] raises nothing: it returns
    the numbers of all the listed titles, in non-decreasing order.  It is
    the caller that stops, with exit status 1, when the operator enters
    nothing and the count of tracks differs from the count of titles. *)
Theorem read_toc_returns_short_lists (toc : list string) (n : nat) (w : world) :
  let entries := toc_entries toc in
  (length entries < n)%nat →
  ∃ tracks w',
    read_toc toc n w = (Ok tracks, w')
    ∧ length tracks = length entries
    ∧ tracks ≡ₚ entries.*2
    ∧ StronglySorted Z.le tracks
    ∧ ∀ titles reply,
        length titles = n → Py.strip reply = EmptyString →
        ∃ w'',
          main_tracks toc titles (Some reply) w = (Raise (SystemExit 1), w'')
          ∧ sys_stderr w''
            = sys_stderr w
              ++ [coloured ("selected " +:+ Py.str_of_int (Z.of_nat (length entries))
                            +:+ " tracks to rip, but number of tags is "
                            +:+ Py.str_of_int (Z.of_nat n))].
Proof.
  intros entries Hn.
  assert (∀ w, read_toc toc n w
               = (Ok (stable_sort by_title
                        (take n (stable_sort by_length_desc entries))).*2,
                  World (fs w)
                    (sys_stdout w ++ map (λ line, Py.strip line +:+ nl) toc)
                    (sys_stderr w) (spawned w ++ [["lsdvd"]]))) as Hspec.
  { intros w1. apply read_toc_spec. }
  clearbody entries. rewrite Hspec.
  assert (take n (stable_sort by_length_desc entries)
          = stable_sort by_length_desc entries) as Htake.
  { apply take_ge. rewrite stable_sort_length. lia. }
  rewrite Htake.
  set (tracks := (stable_sort by_title (stable_sort by_length_desc entries)).*2).
  assert (length tracks = length entries) as Hlen.
  { unfold tracks. by rewrite length_fmap, !stable_sort_length. }
  eexists _, _. split; [reflexivity|]. split_and!.
  - done.
  - unfold tracks. by rewrite !stable_sort_perm.
  - apply sorted_titles.
  - intros titles reply Htitles Hreply. unfold main_tracks.
    unfold mbind at 1, py_bind at 1. rewrite Htitles, Hspec.
    rewrite Htake. fold tracks.
    unfold mbind, py_bind, msg, msg_to, write, mret, py_ret, die, raise.
    rewrite Hreply. cbn [fst snd fs sys_stdout sys_stderr spawned].
    rewrite Hlen. rewrite (proj2 (Nat.eqb_neq _ _)) by lia.
    cbn [negb sys_stderr fs sys_stdout spawned]. eexists. split; reflexivity.
Qed.

(** The claim of C6 fails: asked for two titles of a listing that has
    one, [read_toc] returns the one. *)
Lemma read_toc_short_counterexample :
  fst (read_toc ["Disc Title: SAMPLE";
                 "Title: 01, Length: 00:42:10.000 Chapters: 06"] 2
         (World ∅ [] [] []))
  = Ok [1].
Proof. by vm_compute. Qed.

(** ** Worked instances *)

Lemma parse_metadata_one_descriptor_per_matching_line_witness :
  forallb resolvable sample_log = true
  ∧ ∃ streams,
      fst (parse_metadata sample_log empty_world) = Ok streams
      ∧ length streams = 3%nat.
Proof.
  assert (forallb resolvable sample_log = true) as Hres by (by vm_compute).
  split; [exact Hres|].
  destruct (parse_metadata_one_descriptor_per_matching_line
              sample_log empty_world Hres) as (streams & Hrun & _ & Hlen).
  exists streams. rewrite Hrun. split; [done|].
  rewrite Hlen. by vm_compute.
Defined.

Lemma lang_iso_code_total_on_its_keys_witness :
  ("tlh" ∉ short_codes)
  ∧ getitem lang_iso_code "tlh" = Raise (KeyError "tlh")
  ∧ forallb resolvable unknown_code_log = false
  ∧ ∃ c, fst (parse_metadata unknown_code_log empty_world) = Raise (KeyError c).
Proof.
  assert ("tlh" ∉ short_codes) as Hc.
  { apply lang_iso_code_keys. by vm_compute. }
  assert (forallb resolvable unknown_code_log = false) as Hres by (by vm_compute).
  destruct lang_iso_code_total_on_its_keys as (_ & Hother & Hlog).
  split_and!; [done|by apply Hother|done|].
  destruct (Hlog unknown_code_log empty_world Hres) as (c & w' & Hrun & _).
  exists c. by rewrite Hrun.
Defined.

Lemma unclassified_failure_is_terminal_witness :
  status unknown_failure ≠ 0
  ∧ ∃ w',
      re_mux_loop [unknown_failure; success] "dvdrip.abcdef.vob"
        [("title", "T")] sample_streams "T.mp4" ["-map"; "0"]
        (dump_only "dvdrip.abcdef.vob")
      = (Raise (SystemExit 1), w')
      ∧ fs w' !! "dvdrip.abcdef.vob" = Some "VOB"
      ∧ length (spawned w') = 1%nat.
Proof.
  assert (status unknown_failure ≠ 0) as Hst by done.
  split; [exact Hst|].
  destruct (unclassified_failure_is_terminal "dvdrip.abcdef.vob"
              [("title", "T")] sample_streams "T.mp4" ["-map"; "0"]
              unknown_failure [success] (dump_only "dvdrip.abcdef.vob")
              Hst eq_refl eq_refl)
    as (w' & Hrun & _ & Hother & _ & Hsp & _).
  exists w'. split_and!; [exact Hrun| |rewrite Hsp; reflexivity].
  rewrite Hother; [reflexivity|].
  rewrite !not_elem_of_cons. split_and!; try discriminate. apply not_elem_of_nil.
Defined.

Lemma dts_failure_retries_without_subtitles_witness :
  status both_failure ≠ 0
  ∧ is_Some (Re.search dts_re (child_stderr both_failure))
  ∧ is_Some (Re.search codec_re (child_stderr both_failure))
  ∧ ∃ w',
      re_mux_loop [both_failure; success] "dvdrip.abcdef.vob"
        [("title", "T")] sample_streams "T.mp4" ["-map"; "0"]
        (dump_only "dvdrip.abcdef.vob")
      = re_mux_loop [success] "dvdrip.abcdef.vob"
          [("title", "T")] sample_streams "T.mp4"
          ["-map"; "0:v"; "-map"; "0:a"] w'.
Proof.
  assert (status both_failure ≠ 0) as Hst by done.
  assert (is_Some (Re.search dts_re (child_stderr both_failure))) as Hd.
  { vm_compute. by eexists. }
  split_and!; [done|done|vm_compute; by eexists|].
  destruct (dts_failure_retries_without_subtitles "dvdrip.abcdef.vob"
              [("title", "T")] sample_streams "T.mp4" ["-map"; "0"]
              both_failure success [] (dump_only "dvdrip.abcdef.vob") Hst Hd)
    as ((w' & Hrun & _) & _).
  by exists w'.
Defined.

Lemma retries_are_not_bounded_witness :
  forallb recoverable (replicate 6 dts_failure) = true
  ∧ ∃ w' cmds,
      re_mux_loop (replicate 6 dts_failure ++ [success]) "dvdrip.abcdef.vob"
        [("title", "T")] sample_streams "T.mp4" ["-map"; "0"]
        (dump_only "dvdrip.abcdef.vob")
      = (Ok Left_loop, w')
      ∧ spawned w' = cmds ∧ length cmds = 7%nat.
Proof.
  assert (forallb recoverable (replicate 6 dts_failure) = true) as Hrec
      by (by vm_compute).
  split; [exact Hrec|].
  destruct (retries_are_not_bounded "dvdrip.abcdef.vob" [("title", "T")]
              sample_streams "T.mp4" ["-map"; "0"] (replicate 6 dts_failure)
              (dump_only "dvdrip.abcdef.vob") Hrec) as [_ Hend].
  destruct (Hend success "VOB" eq_refl eq_refl) as (w' & cmds & Hrun & _ & Hsp & Hlen).
  exists w', cmds. split_and!; [exact Hrun|exact Hsp|exact Hlen].
Defined.

Lemma codec_failure_excludes_the_named_stream_witness :
  status codec_failure ≠ 0
  ∧ Re.search dts_re (child_stderr codec_failure) = None
  ∧ Re.search codec_re (child_stderr codec_failure) = Some ["3"]
  ∧ kept_indices (child_stderr codec_failure) "3" = ["0"; "1"; "2"; "4"]
  ∧ ∃ w',
      re_mux_loop [codec_failure; success] "dvdrip.abcdef.vob"
        [("title", "T")] sample_streams "T.mp4" ["-map"; "0"]
        (dump_only "dvdrip.abcdef.vob")
      = re_mux_loop [success] "dvdrip.abcdef.vob"
          [("title", "T")] sample_streams "T.mp4"
          ["-map"; "0:0"; "-map"; "0:1"; "-map"; "0:2"; "-map"; "0:4"] w'.
Proof.
  assert (status codec_failure ≠ 0) as Hst by done.
  assert (Re.search dts_re (child_stderr codec_failure) = None) as Hd
      by (by vm_compute).
  assert (Re.search codec_re (child_stderr codec_failure) = Some ["3"]) as Hc
      by (by vm_compute).
  split_and!; [done|done|done|by vm_compute|].
  destruct (codec_failure_excludes_the_named_stream "dvdrip.abcdef.vob"
              [("title", "T")] sample_streams "T.mp4" ["-map"; "0"]
              codec_failure success [] (dump_only "dvdrip.abcdef.vob")
              ["3"] Hst Hd Hc)
    as (_ & (w' & Hrun & _) & _).
  exists w'. exact Hrun.
Defined.


Lemma read_toc_returns_short_lists_witness :
  (length (toc_entries sample_toc) < 6)%nat
  ∧ ∃ tracks, fst (read_toc sample_toc 6 empty_world) = Ok tracks
              ∧ length tracks = 5%nat
  ∧ ∃ w'', main_tracks sample_toc ["a"; "b"; "c"; "d"; "e"; "f"] (Some nl) empty_world
           = (Raise (SystemExit 1), w'').
Proof.
  assert (length (toc_entries sample_toc) < 6)%nat as Hn.
  { vm_compute. lia. }
  split; [exact Hn|].
  destruct (read_toc_returns_short_lists sample_toc 6 empty_world Hn)
    as (tracks & w' & Hrun & Hlen & _ & _ & Hmain).
  exists tracks. rewrite Hrun. split_and!; [done|by rewrite Hlen|].
  destruct (Hmain ["a"; "b"; "c"; "d"; "e"; "f"] nl eq_refl eq_refl)
    as (w'' & Hdie & _).
  by exists w''.
Defined.

(** * Further properties *)

(** ** [filesafe] *)

Lemma sanitize_one_pass e : smap dashed (sfilter kept e) = sanitize e.
Proof.
  induction e as [|a e IH]; [done|]. cbn [sfilter sanitize].
  assert ((if kept a then String (dashed a) EmptyString else EmptyString)
          = sanitize_char a) as Ha.
  { generalize (ascii_cases
      (λ a, String.eqb (if kept a then String (dashed a) EmptyString else EmptyString)
              (sanitize_char a)) ltac:(by vm_compute) a).
    cbv beta. by intros ?%String.eqb_eq. }
  rewrite <- Ha, <- IH. by destruct (kept a).
Qed.

Lemma has_char_sanitized c r :
  sanitized_char c = false → Py.all_chars sanitized_char r = true →
  has_char c r = false.
Proof.
  intros Hc. induction r as [|a r IH]; [done|]. cbn [Py.all_chars has_char].
  intros [Ha Hr]%andb_prop. rewrite (IH Hr), orb_false_r.
  apply Ascii.eqb_neq. intros ->. congruence.
Qed.

(** X1.  A name [filesafe] returns is plain ASCII and holds none of the
    thirteen characters its two lists name. *)
Theorem filesafe_output_is_clean (s : pystring) (r : string) (c : ascii) :
  filesafe s = Ok r →
  Py.all_chars Py.is_ascii r = true
  ∧ (c ∈ badchar_deleted ++ badchar_dashed → has_char c r = false).
Proof.
  intros Hr%filesafe_sanitized. split.
  - unfold sanitized_char in Hr. rewrite !all_chars_and in Hr.
    by apply andb_prop in Hr as [[? ?]%andb_prop ?].
  - intros Hc. apply has_char_sanitized; [|done].
    unfold badchar_deleted, badchar_dashed in Hc. cbn [app] in Hc.
    repeat (apply elem_of_cons in Hc as [->|Hc]; [by vm_compute|]).
    by apply elem_of_nil in Hc.
Qed.

Lemma filesafe_output_is_clean_witness :
  filesafe (Str sample_title) = Ok "The Show- Pilot"
  ∧ has_char ":" "The Show- Pilot" = false.
Proof.
  assert (filesafe (Str sample_title) = Ok "The Show- Pilot") as H by (by vm_compute).
  split; [exact H|].
  apply (filesafe_output_is_clean (Str sample_title) "The Show- Pilot" ":" H).
  unfold badchar_deleted, badchar_dashed. cbn [app].
  do 10 apply list_elem_of_further. apply list_elem_of_here.
Defined.

(** X2.  On a byte string [filesafe] raises [UnicodeDecodeError] when
    the string has a byte above 127, and otherwise returns the string
    with each character dropped, dashed or kept; on a string of code
    points it never raises. *)
Theorem filesafe_raises_on_high_bytes_only (b : string) (u : list N) :
  filesafe (Str b)
  = (if Py.all_chars Py.is_ascii b then Ok (sanitize b)
     else Raise UnicodeDecodeError)
  ∧ ∃ r, filesafe (UStr u) = Ok r.
Proof.
  rewrite !filesafe_spec. split.
  - destruct b as [|a b]; [done|]. cbn [falsy encode_ascii_replace].
    destruct (Py.all_chars Py.is_ascii (String a b)); [|done].
    unfold mbind, result_bind. by rewrite sanitize_one_pass.
  - destruct (falsy (UStr u)); eexists; reflexivity.
Qed.

(** X3.  The two replace loops of [filesafe] amount to one pass over the
    encoded text that drops the ten characters of the first list and
    writes a dash for colon, slash and hash; the backslash, which both
    lists name, is dropped, never dashed. *)
Theorem filesafe_is_one_pass (s : pystring) :
  filesafe s
  = (if falsy s then Ok EmptyString
     else e ← encode_ascii_replace s; Ok (sanitize e))
  ∧ sanitize_char (ascii_of_nat 92) = EmptyString.
Proof.
  split; [|reflexivity]. rewrite filesafe_spec.
  destruct (falsy s); [done|].
  destruct (encode_ascii_replace s) as [e|]; [|done].
  unfold mbind, result_bind. by rewrite sanitize_one_pass.
Qed.

(** ** [re_mux] *)

Lemma string_app_assoc (a b c : string) : (a +:+ b) +:+ c = a +:+ b +:+ c.
Proof.
  induction a as [|x a IH]; [done|].
  change ((String x a +:+ b) +:+ c) with (String x ((a +:+ b) +:+ c)).
  by rewrite IH.
Qed.

Lemma sanitize_app a b : sanitize (a +:+ b) = sanitize a +:+ sanitize b.
Proof.
  induction a as [|c a IH]; [done|].
  change (String c a +:+ b) with (String c (a +:+ b)). cbn [sanitize].
  by rewrite IH, string_app_assoc.
Qed.

Lemma all_chars_app P a b :
  Py.all_chars P (a +:+ b) = Py.all_chars P a && Py.all_chars P b.
Proof.
  induction a as [|c a IH]; [done|].
  change (String c a +:+ b) with (String c (a +:+ b)). cbn [Py.all_chars].
  by rewrite IH, andb_assoc.
Qed.

Lemma filesafe_with_extension name r :
  filesafe (Str (name +:+ ".mp4")) = Ok r →
  r = sanitize name +:+ ".mp4" ∧ Py.all_chars sanitized_char r = true.
Proof.
  intros H. split; [|by apply filesafe_sanitized in H].
  rewrite filesafe_spec in H.
  assert (falsy (Str (name +:+ ".mp4")) = false) as Hf by (by destruct name).
  rewrite Hf in H. cbn [encode_ascii_replace] in H.
  destruct (Py.all_chars Py.is_ascii (name +:+ ".mp4")); [|done].
  unfold mbind, result_bind in H. injection H as <-.
  by rewrite sanitize_one_pass, sanitize_app.
Qed.

(** X4.  The output file name [re_mux] settles on ends in [.mp4] and has
    no slash and no backslash in it, so the output lands in the working
    directory whatever the title and the episode identifier hold. *)
Theorem re_mux_outfile_stays_in_cwd (metadata_bag : bag) (outfile : string) :
  re_mux_outfile metadata_bag = Ok outfile →
  ends_with outfile ".mp4"
  ∧ has_char "/" outfile = false
  ∧ has_char (ascii_of_nat 92) outfile = false.
Proof.
  unfold re_mux_outfile. intros H.
  assert (∃ name, filesafe (Str (name +:+ ".mp4")) = Ok outfile) as [name Hname].
  { destruct (bag_has metadata_bag "episode_id").
    - destruct (bag_get metadata_bag "episode_id") as [e|]; [|done].
      destruct (bag_get metadata_bag "title") as [t|]; [|done].
      exists (e +:+ " " +:+ t). unfold mbind, result_bind in H.
      by rewrite !string_app_assoc.
    - destruct (bag_get metadata_bag "title") as [t|]; [|done]. by exists t. }
  apply filesafe_with_extension in Hname as [-> Hclean]. split_and!.
  - by eexists.
  - by apply has_char_sanitized.
  - by apply has_char_sanitized.
Qed.

Lemma re_mux_outfile_stays_in_cwd_witness :
  re_mux_outfile titled_bag = Ok "A-B- C.mp4"
  ∧ ends_with "A-B- C.mp4" ".mp4".
Proof.
  assert (re_mux_outfile titled_bag = Ok "A-B- C.mp4") as H by (by vm_compute).
  split; [exact H|]. exact (proj1 (re_mux_outfile_stays_in_cwd _ _ H)).
Defined.

Lemma bag_get_raises (b : bag) key :
  bag_has b key = false → bag_get b key = Raise (KeyError key).
Proof.
  unfold bag_has. induction b as [|[k v] b IH]; [done|]. cbn [bag_get].
  by destruct (String.eqb k key).
Qed.

(** X5.  Without a [title] in the bag [re_mux] raises [KeyError] for
    [title] before anything happens: no child is spawned, nothing is
    printed, written or removed, whatever the children would have done. *)
Theorem re_mux_without_title (script : list outcome) (streams : list Stream)
    (tmpfile : string) (metadata_bag : bag) (w : world) :
  bag_has metadata_bag "title" = false →
  re_mux script streams tmpfile metadata_bag w = (Raise (KeyError "title"), w).
Proof.
  intros Ht%bag_get_raises.
  assert (re_mux_outfile metadata_bag = Raise (KeyError "title")) as Hout.
  { unfold re_mux_outfile. rewrite Ht.
    unfold bag_has.
    destruct (bag_get metadata_bag "episode_id"); reflexivity. }
  unfold re_mux. unfold mbind, py_bind, lift. by rewrite Hout.
Qed.

Lemma re_mux_without_title_witness :
  bag_has untitled_bag "title" = false
  ∧ re_mux [success] sample_streams "dvdrip.abcdef.vob" untitled_bag
      (dump_only "dvdrip.abcdef.vob")
    = (Raise (KeyError "title"), dump_only "dvdrip.abcdef.vob").
Proof.
  split; [reflexivity|]. by apply re_mux_without_title.
Defined.



(** X7.  When the first child exits with status 0, [re_mux] is done after
    that one attempt: its command maps every stream of the input and
    names the sanitized output file last, the dump is removed, nothing
    goes to standard error, and no later outcome is looked at. *)
Theorem re_mux_succeeds_at_once
    (script : list outcome) (streams : list Stream) (tmpfile : string)
    (metadata_bag : bag) (o : outcome) (outfile data : string) (w : world) :
  status o = 0 →
  re_mux_outfile metadata_bag = Ok outfile →
  fs w !! tmpfile = Some data →
  ∃ w',
    re_mux (o :: script) streams tmpfile metadata_bag w = (Ok Left_loop, w')
    ∧ fs w' = delete tmpfile (fs w)
    ∧ sys_stderr w' = sys_stderr w
    ∧ spawned w'
      = spawned w
        ++ [["ffmpeg"; "-probesize"; "200M"; "-analyzeduration"; "120M"; "-i";
             tmpfile; "-map"; "0"; "-c"; "copy"; "-y"]
            ++ metadata_args metadata_bag ++ stream_language_tags streams
            ++ [outfile]].
Proof.
  intros Hst Hout Hfile. unfold re_mux. unfold mbind at 1, py_bind, lift.
  rewrite Hout, re_mux_loop_step.
  rewrite (re_mux_after_ok _ _ _ _ data) by done.
  eexists. split; [reflexivity|]. done.
Qed.

Lemma re_mux_succeeds_at_once_witness :
  ∃ w',
    re_mux [success; unknown_failure] sample_streams "dvdrip.abcdef.vob"
      titled_bag (dump_only "dvdrip.abcdef.vob")
    = (Ok Left_loop, w')
    ∧ fs w' = delete "dvdrip.abcdef.vob" (fs (dump_only "dvdrip.abcdef.vob")).
Proof.
  destruct (re_mux_succeeds_at_once [unknown_failure] sample_streams
              "dvdrip.abcdef.vob" titled_bag success "A-B- C.mp4" "VOB"
              (dump_only "dvdrip.abcdef.vob") eq_refl eq_refl eq_refl)
    as (w' & Hrun & Hfs & _).
  by exists w'.
Defined.

(** X8.  When the diagnostics of a codec failure list, before the output
    section, no stream but the one they name, the rebuilt map is empty:
    the next attempt is made with no [-map] argument of the loop's own
    between the input file and the codec directive. *)
Theorem codec_failure_with_no_other_stream
    (tmpfile : string) (metadata_bag : bag) (streams : list Stream)
    (outfile : string) (map_args : list string) (o : outcome)
    (script : list outcome) (w : world) (groups : list string) :
  status o ≠ 0 →
  Re.search dts_re (child_stderr o) = None →
  Re.search codec_re (child_stderr o) = Some groups →
  (∀ i, listed_before_output (child_stderr o) i → i = Re.group groups 1) →
  ∃ w',
    re_mux_loop (o :: script) tmpfile metadata_bag streams outfile map_args w
    = re_mux_loop script tmpfile metadata_bag streams outfile [] w'
    ∧ fs w' = fs w
    ∧ re_mux_cmd tmpfile [] metadata_bag streams outfile
      = ["ffmpeg"; "-probesize"; "200M"; "-analyzeduration"; "120M"; "-i";
         tmpfile; "-c"; "copy"; "-y"]
        ++ metadata_args metadata_bag ++ stream_language_tags streams ++ [outfile].
Proof.
  intros Hst Hd Hc Hlone. rewrite re_mux_loop_step.
  rewrite (re_mux_after_codec _ _ _ _ groups) by done.
  rewrite exclude_bad_stream_spec.
  assert (kept_indices (child_stderr o) (Re.group groups 1) = []) as Hnone.
  { apply elem_of_nil_inv. intros i Hi.
    apply elem_of_kept_indices in Hi as [Hne Hl]. by apply Hne, Hlone. }
  unfold kept_indices in Hnone. rewrite Hnone.
  eexists. split; [reflexivity|]. done.
Qed.

Lemma codec_failure_with_no_other_stream_witness :
  kept_indices lone_stream_stderr "0" = []
  ∧ ∃ w',
      re_mux_loop [Outcome 1 EmptyString lone_stream_stderr; success]
        "dvdrip.abcdef.vob" titled_bag sample_streams "T.mp4" ["-map"; "0"]
        (dump_only "dvdrip.abcdef.vob")
      = re_mux_loop [success] "dvdrip.abcdef.vob" titled_bag sample_streams
          "T.mp4" [] w'.
Proof.
  assert (kept_indices lone_stream_stderr "0" = []) as Hk by (by vm_compute).
  split; [exact Hk|].
  assert (∀ i, listed_before_output lone_stream_stderr i → i = "0") as Hlone.
  { intros i Hi. destruct (decide (i = "0")) as [->|Hne]; [done|].
    assert (i ∈ kept_indices lone_stream_stderr "0") as Hin
        by (by apply elem_of_kept_indices).
    rewrite Hk in Hin. by apply elem_of_nil in Hin. }
  assert (status (Outcome 1 EmptyString lone_stream_stderr) ≠ 0) as Hst by done.
  assert (Re.search dts_re lone_stream_stderr = None) as Hd by (by vm_compute).
  assert (Re.search codec_re lone_stream_stderr = Some ["0"]) as Hc
      by (by vm_compute).
  destruct (codec_failure_with_no_other_stream "dvdrip.abcdef.vob" titled_bag
              sample_streams "T.mp4" ["-map"; "0"]
              (Outcome 1 EmptyString lone_stream_stderr) [success]
              (dump_only "dvdrip.abcdef.vob") ["0"] Hst Hd Hc Hlone)
    as (w' & Hrun & _).
  by exists w'.
Defined.

(** ** [stream_language_tags] *)

Lemma strip_prefix_app p x : Py.strip_prefix p (p +:+ x) = Some x.
Proof.
  induction p as [|c p IH]; [done|].
  change (String c p +:+ x) with (String c (p +:+ x)). cbn [Py.strip_prefix].
  by rewrite Ascii.eqb_refl.
Qed.

Lemma flags_of_app t a b : flags_of t (a ++ b) = flags_of t a ++ flags_of t b.
Proof. apply List.filter_app. Qed.

Lemma flags_of_audio_tag t k lang :
  flags_of t ["-metadata:s:a:" +:+ k; "language=" +:+ lang]
  = match t with audio => ["-metadata:s:a:" +:+ k] | subtitle => [] end.
Proof. destruct t; reflexivity. Qed.

Lemma flags_of_subtitle_tag t k lang :
  flags_of t ["-metadata:s:s:" +:+ k; "language=" +:+ lang]
  = match t with audio => [] | subtitle => ["-metadata:s:s:" +:+ k] end.
Proof. destruct t; reflexivity. Qed.

Lemma stream_language_tags_from_flags rest : ∀ args (na ns : nat),
  length (stream_language_tags_from rest args (Z.of_nat na) (Z.of_nat ns))
  = (length args + 2 * length rest)%nat
  ∧ flags_of audio (stream_language_tags_from rest args (Z.of_nat na) (Z.of_nat ns))
    = flags_of audio args ++ (tag_flag audio <$> seq na (count_kind audio rest))
  ∧ flags_of subtitle (stream_language_tags_from rest args (Z.of_nat na) (Z.of_nat ns))
    = flags_of subtitle args ++ (tag_flag subtitle <$> seq ns (count_kind subtitle rest)).
Proof.
  induction rest as [|x rest IH]; intros args na ns.
  - cbn. rewrite !app_nil_r. split_and!; [lia|done..].
  - cbn [stream_language_tags_from]. destruct x as [[] f l]; cbn [type language].
    + replace (Z.of_nat na + 1) with (Z.of_nat (S na)) by lia.
      destruct (IH (args ++ ["-metadata:s:a:" +:+ Py.str_of_int (Z.of_nat na);
                             "language=" +:+ l]) (S na) ns) as (H1 & H2 & H3).
      rewrite H1, H2, H3, !flags_of_app, length_app.
      rewrite !flags_of_audio_tag.
      unfold count_kind. cbn [List.filter type length].
      rewrite (bool_decide_eq_true_2 (audio = audio)) by done.
      rewrite (bool_decide_eq_false_2 (audio = subtitle)) by done.
      cbn [length seq fmap list_fmap]. rewrite <- !app_assoc.
      split_and!; [lia|reflexivity..].
    + replace (Z.of_nat ns + 1) with (Z.of_nat (S ns)) by lia.
      destruct (IH (args ++ ["-metadata:s:s:" +:+ Py.str_of_int (Z.of_nat ns);
                             "language=" +:+ l]) na (S ns)) as (H1 & H2 & H3).
      rewrite H1, H2, H3, !flags_of_app, length_app.
      rewrite !flags_of_subtitle_tag.
      unfold count_kind. cbn [List.filter type length].
      rewrite (bool_decide_eq_true_2 (subtitle = subtitle)) by done.
      rewrite (bool_decide_eq_false_2 (subtitle = audio)) by done.
      cbn [length seq fmap list_fmap]. rewrite <- !app_assoc.
      split_and!; [lia|reflexivity..].
Qed.

(** X9.  [stream_language_tags] returns two arguments per descriptor, and
    the audio flags it returns are numbered 0, 1, 2, ... with no gap and
    no repeat, one per audio descriptor; likewise the subtitle flags. *)
Theorem stream_language_tags_number_each_kind_from_zero
    (stream_defs : list Stream) (t : stream_type) :
  length (stream_language_tags stream_defs) = (2 * length stream_defs)%nat
  ∧ flags_of t (stream_language_tags stream_defs)
    = tag_flag t <$> seq 0 (count_kind t stream_defs).
Proof.
  destruct (stream_language_tags_from_flags stream_defs [] 0 0) as (H1 & H2 & H3).
  split; [exact H1|]. destruct t; [exact H2|exact H3].
Qed.

(** ** Whitespace around lines *)

Lemma rstrip_app_space t ws :
  Py.all_chars Ascii.is_space ws = true → Py.rstrip (t +:+ ws) = Py.rstrip t.
Proof.
  intros Hws. induction t as [|c t IH].
  - change (EmptyString +:+ ws) with ws.
    induction ws as [|a ws IHws]; [done|]. cbn [Py.all_chars] in Hws.
    apply andb_prop in Hws as [Ha Hws]. cbn [Py.rstrip].
    by rewrite (IHws Hws), Ha.
  - change (String c t +:+ ws) with (String c (t +:+ ws)). cbn [Py.rstrip].
    by rewrite IH.
Qed.

Lemma lstrip_space_app ws t :
  Py.all_chars Ascii.is_space ws = true → Py.lstrip (ws +:+ t) = Py.lstrip t.
Proof.
  induction ws as [|a ws IH]; [done|]. cbn [Py.all_chars].
  intros [Ha Hws]%andb_prop.
  change (String a ws +:+ t) with (String a (ws +:+ t)). cbn [Py.lstrip].
  by rewrite Ha, IH.
Qed.

Lemma lstrip_app_space t ws :
  Py.all_chars Ascii.is_space ws = true →
  Py.rstrip (Py.lstrip (t +:+ ws)) = Py.rstrip (Py.lstrip t).
Proof.
  intros Hws. induction t as [|c t IH].
  - change (EmptyString +:+ ws) with ws.
    rewrite <- (lstrip_space_app ws EmptyString Hws).
    assert (ws +:+ EmptyString = ws) as -> ; [|done].
    clear. induction ws as [|a ws IH]; [done|].
    change (String a ws +:+ EmptyString) with (String a (ws +:+ EmptyString)).
    by rewrite IH.
  - change (String c t +:+ ws) with (String c (t +:+ ws)). cbn [Py.lstrip].
    destruct (Ascii.is_space c); [done|].
    change (String c (t +:+ ws)) with (String c t +:+ ws).
    by apply rstrip_app_space.
Qed.

Lemma strip_padded line' line : padded line' line → Py.strip line' = Py.strip line.
Proof.
  intros (before & after & Hb & Ha & ->). unfold Py.strip.
  rewrite lstrip_space_app by done. by apply lstrip_app_space.
Qed.

Lemma parse_metadata_from_padded log' log :
  Forall2 padded log' log →
  ∀ streams w, parse_metadata_from log' streams w = parse_metadata_from log streams w.
Proof.
  induction 1 as [|line' line log' log Hpad Hrest IH]; intros streams w; [done|].
  cbn [parse_metadata_from]. unfold mbind, py_bind.
  rewrite !parse_metadata_line_spec, (strip_padded _ _ Hpad).
  destruct (line_shape (Py.strip line)) as [[[k f] c]|]; [|apply IH].
  destruct (lang_iso_code !! c); [apply IH|done].
Qed.

Lemma read_toc_scan_padded toc' toc :
  Forall2 padded toc' toc →
  ∀ title_len w, read_toc_scan toc' title_len w = read_toc_scan toc title_len w.
Proof.
  induction 1 as [|line' line toc' toc Hpad Hrest IH]; intros title_len w; [done|].
  cbn [read_toc_scan]. unfold mbind, py_bind.
  rewrite (strip_padded _ _ Hpad). unfold print, write. apply IH.
Qed.

(** X10.  Whitespace around the lines makes no difference to either
    parser: a log or a table of contents whose lines carry extra blanks,
    tabs or line ends before or after them is read, printed and answered
    exactly as the bare lines are. *)
Theorem parsers_ignore_surrounding_whitespace
    (log' log : list string) (n : nat) (w : world) :
  Forall2 padded log' log →
  parse_metadata log' w = parse_metadata log w
  ∧ read_toc log' n w = read_toc log n w.
Proof.
  intros Hpad. split.
  - by apply parse_metadata_from_padded.
  - unfold read_toc. unfold mbind, py_bind.
    destruct (spawn ["lsdvd"] w) as [[[]|e] w1]; [|done].
    by rewrite (read_toc_scan_padded _ _ Hpad).
Qed.

Lemma parsers_ignore_surrounding_whitespace_witness :
  Forall2 padded [tab +:+ "subtitle ( sid ): 0 language: fr" +:+ nl]
    ["subtitle ( sid ): 0 language: fr"]
  ∧ parse_metadata [tab +:+ "subtitle ( sid ): 0 language: fr" +:+ nl] empty_world
    = parse_metadata ["subtitle ( sid ): 0 language: fr"] empty_world.
Proof.
  assert (Forall2 padded [tab +:+ "subtitle ( sid ): 0 language: fr" +:+ nl]
            ["subtitle ( sid ): 0 language: fr"]) as Hpad.
  { constructor; [|constructor]. by exists tab, nl. }
  split; [exact Hpad|].
  exact (proj1 (parsers_ignore_surrounding_whitespace _ _ 0%nat empty_world Hpad)).
Defined.

(** ** [parse_metadata] *)

Lemma lang_iso_code_values c v :
  lang_iso_code !! c = Some v → String.length v = 3%nat.
Proof.
  unfold lang_iso_code. intros H%elem_of_list_to_map_2.
  repeat (apply elem_of_cons in H as [[= -> ->]|H]; [reflexivity|]).
  by apply elem_of_nil in H.
Qed.

Lemma parse_metadata_from_inv log : ∀ streams w result w',
  parse_metadata_from log streams w = (Ok result, w') →
  result = streams ++ omap line_stream log.
Proof.
  intros streams w result w' Hrun.
  destruct (forallb resolvable log) eqn:Hres.
  - rewrite parse_metadata_from_ok in Hrun by done. by injection Hrun as <- _.
  - destruct (parse_metadata_from_raise log streams w Hres) as (c & w1 & H & _).
    congruence.
Qed.

(** X11.  Every descriptor [parse_metadata] returns carries a language
    code of three characters taken from the table, and a format exactly
    when it is an audio descriptor. *)
Theorem parse_metadata_descriptors_are_well_formed
    (log : list string) (w w' : world) (streams : list Stream) (s : Stream) :
  parse_metadata log w = (Ok streams, w') →
  s ∈ streams →
  String.length (language s) = 3%nat
  ∧ (∃ c, lang_iso_code !! c = Some (language s))
  ∧ (type s = audio ↔ is_Some (format s)).
Proof.
  intros Hrun Hs. apply parse_metadata_from_inv in Hrun. simpl in Hrun. subst.
  apply list_elem_of_omap in Hs as (line & _ & Hline).
  unfold line_stream, line_shape in Hline.
  destruct (Re.rmatch audio_re (Py.strip line)) as [m|].
  - destruct (lang_iso_code !! Re.group m 3) as [v|] eqn:Hv; [|done].
    injection Hline as <-. cbn [language type format]. split_and!.
    + by eapply lang_iso_code_values.
    + by eexists.
    + split; eauto.
  - destruct (Re.rmatch subtitle_re (Py.strip line)) as [m|]; [|done].
    destruct (lang_iso_code !! Re.group m 1) as [v|] eqn:Hv; [|done].
    injection Hline as <-. cbn [language type format]. split_and!.
    + by eapply lang_iso_code_values.
    + by eexists.
    + split; [done|by intros [? ?]].
Qed.

Lemma parse_metadata_descriptors_are_well_formed_witness :
  ∃ streams w', parse_metadata sample_log empty_world = (Ok streams, w')
    ∧ Forall (λ s, String.length (language s) = 3%nat) streams.
Proof.
  destruct (parse_metadata sample_log empty_world) as [r w'] eqn:Hrun.
  assert (∃ streams, r = Ok streams) as [streams ->].
  { assert (fst (parse_metadata sample_log empty_world) = r) as <- by (by rewrite Hrun).
    vm_compute. by eexists. }
  exists streams, w'. split; [done|]. apply Forall_forall. intros s Hs.
  exact (proj1 (parse_metadata_descriptors_are_well_formed _ _ _ _ s Hrun Hs)).
Defined.

(** X12.  [parse_metadata] fails at the first line whose language code is
    not in the table: it raises [KeyError] for that code, having printed
    the notices of the descriptors found on the lines before it and
    nothing for that line or any later one. *)
Theorem parse_metadata_fails_at_the_first_unknown_code
    (good : list string) (line : string) (rest : list string) (c : string)
    (w : world) :
  forallb resolvable good = true →
  line_code line = Some c →
  lang_iso_code !! c = None →
  parse_metadata (good ++ line :: rest) w
  = (Raise (KeyError c), add_stdout (map notice (omap line_stream good)) w).
Proof.
  intros Hgood Hc Hnone. unfold parse_metadata. generalize (@nil Stream).
  revert w Hgood. induction good as [|g good IH]; intros w Hgood streams.
  - cbn [app parse_metadata_from omap list_omap map]. unfold mbind, py_bind.
    rewrite parse_metadata_line_spec, add_stdout_nil.
    unfold line_code in Hc.
    destruct (line_shape (Py.strip line)) as [[[k f] c']|]; [|done].
    injection Hc as ->. by rewrite Hnone.
  - cbn [forallb] in Hgood. apply andb_prop in Hgood as [Hg Hgood].
    rewrite <- app_comm_cons. cbn [parse_metadata_from].
    unfold mbind at 1, py_bind at 1. rewrite parse_metadata_line_spec.
    cbn [omap list_omap]. pose proof (line_stream_resolvable g Hg) as Hn.
    unfold line_stream in *.
    destruct (line_shape (Py.strip g)) as [[[k f] c']|].
    + destruct (lang_iso_code !! c') as [v|]; [|by specialize (Hn eq_refl)].
      cbn [fmap option_fmap option_map map]. rewrite IH by done.
      by rewrite add_stdout_app.
    + by rewrite IH.
Qed.

Lemma parse_metadata_fails_at_the_first_unknown_code_witness :
  parse_metadata unknown_code_log empty_world
  = (Raise (KeyError "tlh"),
     add_stdout [notice (mkStream audio (Some "ac3:5.1") "eng")] empty_world).
Proof.
  apply (parse_metadata_fails_at_the_first_unknown_code
           ["audio stream: 0 format: ac3 (5.1) language: en aid: 128."]
           "subtitle ( sid ): 0 language: tlh" [] "tlh" empty_world);
    by vm_compute.
Defined.

(** ** [read_toc] and the choice of tracks *)

(** X13.  Whatever the table-of-contents reader prints once it has been
    started, [read_toc] raises nothing and touches no file: it prints
    every line stripped and returns as many title numbers as asked for
    or as there are lines of the title shape, whichever is less, each
    the number of a listed title, none taken more often than it is
    listed. *)
Theorem read_toc_returns_at_most_what_is_listed
    (toc : list string) (n : nat) (w : world) :
  ∃ tracks,
    read_toc toc n w
    = (Ok tracks,
       World (fs w) (sys_stdout w ++ map (λ line, Py.strip line +:+ nl) toc)
         (sys_stderr w) (spawned w ++ [["lsdvd"]]))
    ∧ length tracks = (n `min` length (toc_entries toc))%nat
    ∧ tracks ⊆+ (toc_entries toc).*2.
Proof.
  rewrite read_toc_spec. eexists. split; [reflexivity|]. split.
  - by rewrite length_fmap, stable_sort_length, length_take, stable_sort_length.
  - rewrite stable_sort_perm, fmap_take.
    etrans; [apply sublist_submseteq, sublist_take|].
    by rewrite stable_sort_perm.
Qed.

Lemma main_tracks_spec toc titles reply w :
  ∃ defaults w1,
    read_toc toc (length titles) w = (Ok defaults, w1)
    ∧ fs w1 = fs w
    ∧ ∃ w2, fs w2 = fs w ∧ sys_stderr w2 = sys_stderr w
      ∧ main_tracks toc titles reply w
        = match reply with
          | None =>
              (Raise (SystemExit 1),
               World (fs w2) (sys_stdout w2)
                 (sys_stderr w2 ++ [coloured "Bye Bye"]) (spawned w2))
          | Some line =>
              match
                match Py.strip line with
                | EmptyString => Ok defaults
                | _ => map_int (split_ws (Py.strip line))
                end
              with
              | Raise e => (Raise e, w2)
              | Ok tracks =>
                  if (length tracks =? length titles)%nat then (Ok tracks, w2)
                  else
                    (Raise (SystemExit 1),
                     World (fs w2) (sys_stdout w2)
                       (sys_stderr w2
                        ++ [coloured
                              ("selected " +:+ Py.str_of_int (Z.of_nat (length tracks))
                               +:+ " tracks to rip, but number of tags is "
                               +:+ Py.str_of_int (Z.of_nat (length titles)))])
                       (spawned w2))
              end
          end.
Proof.
  pose proof (read_toc_spec toc (length titles) w) as Hrun.
  set (defaults := (stable_sort by_title
                      (take (length titles)
                         (stable_sort by_length_desc (toc_entries toc)))).*2)
    in Hrun.
  eexists defaults, _. split; [exact Hrun|]. split; [done|].
  unfold main_tracks. unfold mbind at 1, py_bind at 1. rewrite Hrun.
  unfold mbind at 1, py_bind at 1, msg at 1, msg_to at 1, write at 1.
  unfold mbind at 1, py_bind at 1, msg at 1, msg_to at 1, write at 1.
  cbn [fs sys_stdout sys_stderr spawned].
  eexists (World _ _ _ _). split; [reflexivity|]. split; [reflexivity|].
  unfold mbind at 1, py_bind at 1.
  destruct reply as [line|]; [|reflexivity].
  unfold mret at 1, py_ret at 1. unfold mbind at 1, py_bind at 1.
  destruct (Py.strip line) as [|c s] eqn:Hs.
  - unfold mret at 1, py_ret at 1.
    destruct (length defaults =? length titles)%nat; reflexivity.
  - unfold lift. destruct (map_int (split_ws (String c s))) as [tracks|e]; [|reflexivity].
    destruct (length tracks =? length titles)%nat; reflexivity.
Qed.

(** X14.  Whatever the table of contents holds and whatever the operator
    types, when the choice of tracks comes back with tracks there are
    exactly as many of them as there are titles, and no file has been
    touched on the way. *)
Theorem main_tracks_count_matches_titles
    (toc titles : list string) (reply : option string) (w w' : world)
    (tracks : list Z) :
  main_tracks toc titles reply w = (Ok tracks, w') →
  length tracks = length titles ∧ fs w' = fs w.
Proof.
  destruct (main_tracks_spec toc titles reply w)
    as (defaults & w1 & _ & _ & w2 & Hfs & _ & ->).
  destruct reply as [line|]; [|done].
  destruct (match Py.strip line with
            | EmptyString => Ok defaults
            | _ => map_int (split_ws (Py.strip line))
            end) as [ts|e]; [|done].
  destruct (length ts =? length titles)%nat eqn:E; [|done].
  intros [= <- <-]. split; [by apply Nat.eqb_eq|done].
Qed.

Lemma main_tracks_count_matches_titles_witness :
  ∃ w', main_tracks sample_toc ["Pilot"; "Finale"] (Some nl) empty_world
        = (Ok [2; 4], w')
        ∧ fs w' = fs empty_world.
Proof.
  destruct (main_tracks sample_toc ["Pilot"; "Finale"] (Some nl) empty_world)
    as [r w'] eqn:Hrun.
  assert (r = Ok [2; 4]) as ->.
  { assert (fst (main_tracks sample_toc ["Pilot"; "Finale"] (Some nl) empty_world) = r)
      as <- by (by rewrite Hrun).
    by vm_compute. }
  exists w'. split; [done|].
  exact (proj2 (main_tracks_count_matches_titles _ _ _ _ _ _ Hrun)).
Defined.


(** ** [mktemp] *)

Lemma choice_alphabet k :
  ∃ c, choice alphabet k = String c EmptyString
       ∧ is_lower c = true ∧ sanitized_char c = true.
Proof.
  unfold choice.
  assert (k mod String.length alphabet < 26)%nat as Hlt.
  { apply Nat.mod_upper_bound. by vm_compute. }
  revert Hlt. generalize (k mod String.length alphabet)%nat. intros j Hlt.
  do 26 (destruct j as [|j]; [eexists; split; [reflexivity|by vm_compute]|]).
  lia.
Qed.

Lemma mktemp_is_no_diagnostic draws path :
  path ∈ ["ffmpeg.stdout"; "ffmpeg.stderr"; "ffmpeg.sh"] → mktemp draws ≠ path.
Proof.
  unfold mktemp. cbn [mktemp_loop].
  destruct (choice_alphabet (draws 0%nat)) as (c0 & -> & _).
  intros Hp. repeat (apply elem_of_cons in Hp as [->|Hp]; [discriminate|]).
  by apply elem_of_nil in Hp.
Qed.

(** X16.  Whatever the random draws, [mktemp] returns the 17-character
    name [dvdrip.] + six lower-case letters + [.vob]; the name is none of
    the three diagnostic files, so writing those never overwrites the
    dump, and [filesafe] leaves it as it is. *)
Theorem mktemp_names_a_dump_file (draws : nat → nat) :
  (∃ letters,
     mktemp draws = "dvdrip." +:+ letters +:+ ".vob"
     ∧ String.length letters = 6%nat
     ∧ Py.all_chars is_lower letters = true)
  ∧ (mktemp draws ∉ ["ffmpeg.stdout"; "ffmpeg.stderr"; "ffmpeg.sh"])
  ∧ filesafe (Str (mktemp draws)) = Ok (mktemp draws).
Proof.
  unfold mktemp. cbn [mktemp_loop].
  destruct (choice_alphabet (draws 0%nat)) as (c0 & -> & L0 & S0).
  destruct (choice_alphabet (draws 1%nat)) as (c1 & -> & L1 & S1).
  destruct (choice_alphabet (draws 2%nat)) as (c2 & -> & L2 & S2).
  destruct (choice_alphabet (draws 3%nat)) as (c3 & -> & L3 & S3).
  destruct (choice_alphabet (draws 4%nat)) as (c4 & -> & L4 & S4).
  destruct (choice_alphabet (draws 5%nat)) as (c5 & -> & L5 & S5).
  split_and!.
  - exists (String c0 (String c1 (String c2 (String c3 (String c4
             (String c5 EmptyString)))))).
    split_and!; [reflexivity|reflexivity|].
    cbn [Py.all_chars]. by rewrite L0, L1, L2, L3, L4, L5.
  - rewrite !not_elem_of_cons. split_and!; try discriminate.
    apply not_elem_of_nil.
  - apply filesafe_fixed.
    change (Py.all_chars sanitized_char
              ("dvdrip." +:+ String c0 (String c1 (String c2 (String c3
                 (String c4 (String c5 ".vob")))))) = true).
    rewrite all_chars_app. cbn [Py.all_chars].
    rewrite S0, S1, S2, S3, S4, S5. by vm_compute.
Qed.

(** X17.  With the dump under the name [mktemp] gives, an attempt that
    fails with neither signature leaves the dump with the content it
    had: the three diagnostic files are written beside it, not over
    it. *)
Theorem unclassified_failure_keeps_the_dump_content
    (draws : nat → nat) (metadata_bag : bag) (streams : list Stream)
    (outfile : string) (map_args : list string) (o : outcome)
    (script : list outcome) (w : world) (data : string) :
  status o ≠ 0 →
  Re.search dts_re (child_stderr o) = None →
  Re.search codec_re (child_stderr o) = None →
  fs w !! mktemp draws = Some data →
  ∃ w',
    re_mux_loop (o :: script) (mktemp draws) metadata_bag streams outfile
      map_args w
    = (Raise (SystemExit 1), w')
    ∧ fs w' !! mktemp draws = Some data.
Proof.
  intros Hst Hd Hc Hfile. rewrite re_mux_loop_step.
  rewrite re_mux_after_unclassified by done.
  eexists. split; [reflexivity|]. cbn [fs]. unfold with_diagnostics.
  rewrite !lookup_insert_ne; [done|..];
    intros Heq; eapply mktemp_is_no_diagnostic; try (symmetry; exact Heq);
    rewrite !elem_of_cons; auto.
Qed.

Lemma unclassified_failure_keeps_the_dump_content_witness :
  ∃ w',
    re_mux_loop [unknown_failure] (mktemp (λ i, i)) titled_bag sample_streams
      "T.mp4" ["-map"; "0"] (dump_only (mktemp (λ i, i)))
    = (Raise (SystemExit 1), w')
    ∧ fs w' !! mktemp (λ i, i) = Some "VOB".
Proof.
  assert (status unknown_failure ≠ 0) as Hst by done.
  apply (unclassified_failure_keeps_the_dump_content (λ i, i) titled_bag
           sample_streams "T.mp4" ["-map"; "0"] unknown_failure []
           (dump_only (mktemp (λ i, i))) "VOB" Hst eq_refl eq_refl).
  by vm_compute.
Defined.

(** ** The patterns on well-formed lines *)

Lemma match_at_lit l p s : Re.match_at (Re.Lit l :: p) (l +:+ s) = Re.match_at p s.
Proof. cbn [Re.match_at]. by rewrite strip_prefix_app. Qed.

Lemma run_length_app cls d s :
  Py.all_chars cls d = true → stops cls s = true →
  Py.run_length cls (d +:+ s) = String.length d.
Proof.
  intros Hd Hs. induction d as [|c d IH].
  - change (EmptyString +:+ s) with s. destruct s as [|a s]; [done|].
    cbn in *. by destruct (cls a).
  - change (String c d +:+ s) with (String c (d +:+ s)). cbn in *.
    apply andb_prop in Hd as [Hc Hd]. by rewrite Hc, IH.
Qed.

Lemma take_drop_app d s :
  Py.take (String.length d) (d +:+ s) = d ∧ Py.drop (String.length d) (d +:+ s) = s.
Proof.
  induction d as [|c d [IH1 IH2]]; [by destruct s|].
  change (String c d +:+ s) with (String c (d +:+ s)). cbn. by rewrite IH1, IH2.
Qed.

Lemma match_at_run capture cls p d s groups :
  Py.all_chars cls d = true → nonempty d = true → stops cls s = true →
  Re.match_at p s = Some groups →
  Re.match_at (Re.Run capture cls :: p) (d +:+ s)
  = Some (if capture then d :: groups else groups).
Proof.
  intros Hd Hne Hs Hp. cbn [Re.match_at]. rewrite run_length_app by done.
  destruct (take_drop_app d s) as [Ht Hdr].
  destruct d as [|c d]; [done|]. cbn [String.length Re.backoff].
  cbn [String.length] in Ht, Hdr. by rewrite Hdr, Hp, Ht.
Qed.

(** X18.  A line in the form the table-of-contents reader prints, the
    word [Title:], a number, [, Length:], a length made of digits, colons
    and dots, and then anything that does not go on with such a
    character, is taken as an entry with that length text and that
    number. *)
Theorem toc_line_entry_of_listed_title (number len rest : string) :
  Py.all_chars Py.is_digit number = true → nonempty number = true →
  Py.all_chars length_char len = true → nonempty len = true →
  stops length_char rest = true →
  toc_line_entry ("Title: " +:+ number +:+ ", Length: " +:+ len +:+ rest)
  = Some (len, Py.int_of_digits number).
Proof.
  intros Hn Hn1 Hl Hl1 Hrest. unfold toc_line_entry, Re.rmatch, toc_re.
  rewrite match_at_lit.
  rewrite (match_at_run true Py.is_digit _ number _ [len]); try done.
  rewrite match_at_lit.
  by rewrite (match_at_run true length_char [] len rest []).
Qed.

Lemma toc_line_entry_of_listed_title_witness :
  toc_line_entry ("Title: " +:+ "07" +:+ ", Length: " +:+ "01:30:00.000"
                  +:+ " Chapters: 12")
  = Some ("01:30:00.000", 7).
Proof.
  by apply (toc_line_entry_of_listed_title "07" "01:30:00.000" " Chapters: 12").
Defined.

(** X19.  A log line in the form the dump tool prints for an audio
    stream is read as an audio line with its two format words joined by
    a colon and its language word; one in the form it prints for a
    subtitle is read as a subtitle line with its language word. *)
Theorem line_shape_of_stream_lines
    (number fmt sub lang rest : string) :
  Py.all_chars Py.is_digit number = true → nonempty number = true →
  Py.all_chars word_or_dot fmt = true → nonempty fmt = true →
  Py.all_chars word_or_dot sub = true → nonempty sub = true →
  Py.all_chars Py.is_word lang = true → nonempty lang = true →
  stops Py.is_word rest = true →
  line_shape ("audio stream: " +:+ number +:+ " format: " +:+ fmt +:+ " ("
              +:+ sub +:+ ") language: " +:+ lang +:+ rest)
  = Some (audio, Some (fmt +:+ ":" +:+ sub), lang)
  ∧ line_shape ("subtitle ( sid ): " +:+ number +:+ " language: " +:+ lang +:+ rest)
    = Some (subtitle, None, lang).
Proof.
  intros Hn Hn1 Hf Hf1 Hs Hs1 Hl Hl1 Hrest. split.
  - unfold line_shape, Re.rmatch, audio_re.
    rewrite match_at_lit.
    rewrite (match_at_run false Py.is_digit _ number _ [fmt; sub; lang]); try done.
    rewrite match_at_lit.
    rewrite (match_at_run true word_or_dot _ fmt _ [sub; lang]); try done.
    rewrite match_at_lit.
    rewrite (match_at_run true word_or_dot _ sub _ [lang]); try done.
    rewrite match_at_lit.
    by rewrite (match_at_run true Py.is_word [] lang rest []).
  - unfold line_shape, Re.rmatch.
    assert (Re.match_at audio_re
              ("subtitle ( sid ): " +:+ number +:+ " language: " +:+ lang +:+ rest)
            = None) as -> by reflexivity.
    unfold subtitle_re. rewrite match_at_lit.
    rewrite (match_at_run false Py.is_digit _ number _ [lang]); try done.
    rewrite match_at_lit.
    by rewrite (match_at_run true Py.is_word [] lang rest []).
Qed.

Lemma line_shape_of_stream_lines_witness :
  line_shape ("audio stream: " +:+ "0" +:+ " format: " +:+ "ac3" +:+ " ("
              +:+ "5.1" +:+ ") language: " +:+ "en" +:+ " aid: 128.")
  = Some (audio, Some ("ac3" +:+ ":" +:+ "5.1"), "en").
Proof.
  by apply (line_shape_of_stream_lines "0" "ac3" "5.1" "en" " aid: 128.").
Defined.

(** ** The arguments of [__main__] *)

Lemma split_on_cons sep s : ∃ l ls, split_on sep s = l :: ls.
Proof.
  destruct s as [|c s]; [by eexists _, _|]. cbn [split_on].
  destruct (Ascii.eqb c sep); [by eexists _, _|].
  destruct (split_on sep s); by eexists _, _.
Qed.

Lemma split_on_length sep s : length (split_on sep s) = S (count_char sep s).
Proof.
  induction s as [|c s IH]; [done|]. cbn [split_on count_char].
  destruct (Ascii.eqb c sep); cbn [length]; [by rewrite IH|].
  destruct (split_on_cons sep s) as (l & ls & Hs). rewrite Hs in IH |- *.
  exact IH.
Qed.

Lemma split_on_join sep s :
  Py.join (String sep EmptyString) (split_on sep s) = s
  ∧ Forall (λ part, has_char sep part = false) (split_on sep s).
Proof.
  induction s as [|c s [IH1 IH2]]; [by repeat constructor|].
  cbn [split_on]. destruct (Ascii.eqb_spec c sep) as [->|Hne].
  - destruct (split_on_cons sep s) as (l & ls & Hs). rewrite Hs in *.
    split; [|by constructor].
    change (String sep (Py.join (String sep EmptyString) (l :: ls)) = String sep s).
    by rewrite IH1.
  - destruct (split_on_cons sep s) as (l & ls & Hs). rewrite Hs in *.
    apply Forall_cons in IH2 as [Hl Hls]. split.
    + unfold Py.join in *. rewrite <- IH1. by destruct ls.
    + constructor; [|done]. cbn [has_char]. rewrite Hl, orb_false_r.
      by apply Ascii.eqb_neq.
Qed.

(** X20.  When the check of the arguments goes through, nothing has been
    printed or spawned, there are as many titles as episode identifiers,
    none of them holds a bar, and joining them with bars gives back the
    two arguments: no part of either is lost or changed. *)
Theorem main_args_split_is_lossless
    (title : option string) (episodes : string) (titles ids : list string)
    (w w' : world) :
  main_args title episodes w = (Ok (titles, ids), w') →
  w' = w
  ∧ length titles = length ids
  ∧ title = Some (Py.join "|" titles)
  ∧ episodes = Py.join "|" ids
  ∧ Forall (λ part, has_char bar part = false) (titles ++ ids).
Proof.
  unfold main_args. destruct title as [[|c t]|]; [done| |done].
  destruct (length (split_on bar (String c t)) =? length (split_on bar episodes))%nat
    eqn:E; [|done].
  cbn [negb]. intros [= <- <- <-]. apply Nat.eqb_eq in E.
  destruct (split_on_join bar (String c t)) as [Ht1 Ht2].
  destruct (split_on_join bar episodes) as [He1 He2].
  split_and!; [done|done| | |by apply Forall_app].
  - f_equal. symmetry. exact Ht1.
  - symmetry. exact He1.
Qed.

Lemma main_args_split_is_lossless_witness :
  ∃ w', main_args (Some "Pilot|Finale") "s01e01|s01e13" empty_world
        = (Ok (["Pilot"; "Finale"], ["s01e01"; "s01e13"]), w')
        ∧ w' = empty_world.
Proof.
  assert (main_args (Some "Pilot|Finale") "s01e01|s01e13" empty_world
          = (Ok (["Pilot"; "Finale"], ["s01e01"; "s01e13"]), empty_world)) as H
      by (by vm_compute).
  exists empty_world. split; [exact H|].
  exact (proj1 (main_args_split_is_lossless _ _ _ _ _ _ H)).
Defined.

(** X21.  The check of the arguments ends the run with exit status 1,
    before anything is spawned, when no title or an empty one is given
    and when the title and the episode argument hold different numbers
    of bars; so with the episode argument left at its empty default,
    only a title without a bar is let through. *)
Theorem main_args_rejects_mismatched_counts
    (title : option string) (episodes : string) (w : world) :
  match title with
  | None | Some EmptyString =>
      ∃ w', main_args title episodes w = (Raise (SystemExit 1), w')
            ∧ spawned w' = spawned w ∧ fs w' = fs w
  | Some t =>
      if (count_char bar t =? count_char bar episodes)%nat
      then main_args title episodes w
           = (Ok (split_on bar t, split_on bar episodes), w)
      else ∃ w', main_args title episodes w = (Raise (SystemExit 1), w')
                 ∧ spawned w' = spawned w ∧ fs w' = fs w
  end.
Proof.
  unfold main_args.
  destruct title as [[|c t]|]; [by eexists| |by eexists].
  rewrite !split_on_length. cbn [Nat.eqb].
  destruct (count_char bar (String c t) =? count_char bar episodes)%nat;
    [reflexivity|by eexists].
Qed.

